(** * UnityMidiReceiver: a model of the Windows MIDI receiver plug-in

    The development embeds [src/UnityMidiReceiver/UnityMidiReceiver.cpp]:
    the [Message] union, the handle vector, the incoming message queue,
    the MIDI callback, the plug-in reset function and the four exported
    entry points.  The WinMM functions the plug-in calls are the
    environment: their answers are read from a [Winmm] record and every
    call is recorded in a trace, together with the mutex operations and
    the accesses to the message queue. *)

From Stdlib Require Import ZArith List Bool Lia.
From Stdlib Require String.
Import ListNotations.
Import String.StringSyntax.
Delimit Scope string_scope with string.
Local Open Scope Z_scope.

(** ** Machine integers *)

Module Int.

(** A value stored in a [uint8_t]. *)
Definition to_uint8 (x : Z) : Z := x mod 256.

(** A value stored in a [uint32_t]. *)
Definition to_uint32 (x : Z) : Z := x mod 4294967296.

(** A value stored in an [int] (32 bits, two's complement). *)
Definition to_int (x : Z) : Z := (x + 2147483648) mod 4294967296 - 2147483648.

Definition INT_MAX : Z := 2147483647.

(** The two Windows targets differ in the width of [size_t] and of
    handles. *)
Inductive Target := Win32 | Win64.

Definition pointer_bits (tgt : Target) : Z :=
  match tgt with Win32 => 32 | Win64 => 64 end.

(** A value converted to [size_t], as the usual arithmetic conversions
    do to the [int] operand of [deviceCount == handles.size()]. *)
Definition to_size_t (tgt : Target) (x : Z) : Z := x mod 2 ^ pointer_bits tgt.

(** The bit field [hi..lo] of a 64-bit value. *)
Definition bits (hi lo : Z) (v : Z) : Z :=
  Z.land (Z.shiftr v lo) (Z.ones (hi - lo + 1)).

End Int.
Import Int.

(** ** Handles and messages *)

(** [HMIDIIN] is a pointer-sized handle; only its numeric value matters. *)
Definition HMIDIIN := Z.
Definition MMRESULT := Z.

(** Constants of [mmsystem.h]. *)
Definition MIM_DATA : Z := 963.         (* MM_MIM_DATA, 0x3C3 *)
Definition MMSYSERR_NOERROR : MMRESULT := 0.

(** [reinterpret_cast<uint32_t>(handle)]: the low 32 bits of the handle. *)
Definition ConvertHandle (handle : HMIDIIN) : Z := to_uint32 handle.

(** The anonymous struct of [union Message].  Its three byte members
    follow the 32-bit [source]; the eighth byte of the union is padding,
    which the constructor never writes: [padding] is whatever the storage
    held before. *)
Record Message := mkMessage {
  source : Z;
  status : Z;
  data1 : Z;
  data2 : Z;
  padding : Z
}.

(** [Message(aSource, aStatus, aData1, aData2)], built in storage whose
    unwritten eighth byte holds [junk]. *)
Definition Message_ctor (junk : Z) (aSource : HMIDIIN) (aStatus aData1 aData2 : Z)
  : Message :=
  {| source := ConvertHandle aSource;
     status := aStatus;
     data1 := aData1;
     data2 := aData2;
     padding := to_uint8 junk |}.

(** The eight bytes of the union, by increasing address: [source] at
    offsets 0..3 (Windows targets are little-endian), [status] at 4,
    [data1] at 5, [data2] at 6, padding at 7
    ([static_assert(sizeof(Message) == sizeof(uint64_t))]). *)
Definition object_bytes (m : Message) : list Z :=
  [ to_uint8 (source m);
    to_uint8 (source m / 256);
    to_uint8 (source m / 65536);
    to_uint8 (source m / 16777216);
    status m; data1 m; data2 m; padding m ].

(** A little-endian integer read from bytes. *)
Fixpoint le_combine (bs : list Z) : Z :=
  match bs with
  | [] => 0
  | b :: bs' => b + 256 * le_combine bs'
  end.

(** The bytes of a little-endian integer. *)
Fixpoint le_split (n : nat) (v : Z) : list Z :=
  match n with
  | O => []
  | S n' => to_uint8 v :: le_split n' (v / 256)
  end.

(** The [uint64Value] member: the same eight bytes read as one integer. *)
Definition uint64Value (m : Message) : Z := le_combine (object_bytes m).

(** The struct members read from a union whose [uint64Value] is [v]. *)
Definition Message_of_uint64 (v : Z) : Message :=
  match le_split 8 v with
  | [b0; b1; b2; b3; b4; b5; b6; b7] =>
      {| source := le_combine [b0; b1; b2; b3];
         status := b4; data1 := b5; data2 := b6; padding := b7 |}
  | _ => mkMessage 0 0 0 0 0
  end.

(** Every member holds a value of its type. *)
Definition wf_Message (m : Message) : Prop :=
  0 <= source m < 4294967296 /\
  0 <= status m < 256 /\ 0 <= data1 m < 256 /\ 0 <= data2 m < 256 /\
  0 <= padding m < 256.

(** ** The decoding the specification documents

    Endpoint identifier in bits 63-32, status in bits 31-24, data1 in
    bits 23-16, data2 in bits 15-8, low byte unused. *)
Module Documented.
Definition endpointId (v : Z) : Z := bits 63 32 v.
Definition status (v : Z) : Z := bits 31 24 v.
Definition data1 (v : Z) : Z := bits 23 16 v.
Definition data2 (v : Z) : Z := bits 15 8 v.
Definition low_byte (v : Z) : Z := bits 7 0 v.
End Documented.

(** ** Plug-in state, environment and traces *)

(** The globals: [handles] and [messageQueue].  The queue is a list whose
    head is the front; [push] appends at the back. *)
Record Plugin := mkPlugin {
  handles : list HMIDIIN;
  messageQueue : list Message
}.

Definition initial : Plugin := {| handles := []; messageQueue := [] |}.

(** What WinMM answers: the device count, and for each slot the result of
    [midiInOpen] with the handle it stores, and for each handle the result
    of [midiInStart]. *)
Record Winmm := mkWinmm {
  numDevs : Z;
  openResult : Z -> MMRESULT * HMIDIIN;
  startResult : HMIDIIN -> MMRESULT
}.

Inductive QueueOp :=
| QEmpty
| QBack
| QPop
| QPush (m : Message)
| QSwap.

Inductive Event :=
| Lock
| Unlock
| Queue (op : QueueOp)
| GetNumDevs
| Close (h : HMIDIIN)
| Open (slot : Z)
| Start (h : HMIDIIN).

(** A call returns, or stops at a failed [assert], or has no defined
    behaviour (an access the containers do not define). *)
Inductive Outcome (A : Type) :=
| Returns (a : A) (st : Plugin)
| AssertFailed
| Undefined.
Arguments Returns {A} a st.
Arguments AssertFailed {A}.
Arguments Undefined {A}.

Definition M (A : Type) : Type := Plugin -> list Event * Outcome A.

Definition ret {A} (a : A) : M A := fun st => ([], Returns a st).

Definition bind {A B} (m : M A) (f : A -> M B) : M B :=
  fun st =>
    match m st with
    | (t, Returns a st') => let (t', o) := f a st' in (t ++ t', o)
    | (t, AssertFailed) => (t, AssertFailed)
    | (t, Undefined) => (t, Undefined)
    end.

Notation "x <- m ;; k" := (bind m (fun x => k))
  (at level 61, m at next level, right associativity).
Notation "m ;; k" := (bind m (fun _ => k))
  (at level 61, right associativity).

(** Record one event in the trace. *)
Definition emit (e : Event) : M unit := fun st => ([e], Returns tt st).

(** [assert(b)], as compiled without [NDEBUG]: a false condition stops
    the program. *)
Definition assert (b : bool) : M unit :=
  fun st => ([], if b then Returns tt st else AssertFailed).

Definition trace_of {A} (r : list Event * Outcome A) : list Event := fst r.
Definition outcome_of {A} (r : list Event * Outcome A) : Outcome A := snd r.

(** *** The mutex *)
Definition messageQueueLock_lock : M unit := emit Lock.
Definition messageQueueLock_unlock : M unit := emit Unlock.

(** *** [std::queue<Message>] *)
Definition messageQueue_empty : M bool :=
  fun st => ([Queue QEmpty],
             Returns (match messageQueue st with [] => true | _ => false end) st).

Definition messageQueue_back : M Message :=
  fun st => ([Queue QBack],
             match messageQueue st with
             | [] => Undefined
             | m :: q => Returns (last q m) st
             end).

Definition messageQueue_pop : M unit :=
  fun st => ([Queue QPop],
             match messageQueue st with
             | [] => Undefined
             | _ :: q => Returns tt {| handles := handles st; messageQueue := q |}
             end).

Definition messageQueue_push (m : Message) : M unit :=
  fun st => ([Queue (QPush m)],
             Returns tt {| handles := handles st;
                           messageQueue := messageQueue st ++ [m] |}).

(** [std::swap(messageQueue, emptyQueue)] with a fresh [emptyQueue]. *)
Definition messageQueue_swap_empty : M unit :=
  fun st => ([Queue QSwap],
             Returns tt {| handles := handles st; messageQueue := [] |}).

(** *** [std::vector<HMIDIIN>] *)
Definition handles_size : M Z :=
  fun st => ([], Returns (Z.of_nat (length (handles st))) st).

Definition handles_get : M (list HMIDIIN) :=
  fun st => ([], Returns (handles st) st).

Definition handles_resize0 : M unit :=
  fun st => ([], Returns tt {| handles := []; messageQueue := messageQueue st |}).

Definition handles_push_back (h : HMIDIIN) : M unit :=
  fun st => ([], Returns tt {| handles := handles st ++ [h];
                               messageQueue := messageQueue st |}).

(** [handles[index]]; outside the vector the access is undefined. *)
Definition handles_at (index : Z) : M HMIDIIN :=
  fun st => ([],
             if index <? 0 then Undefined
             else match nth_error (handles st) (Z.to_nat index) with
                  | Some h => Returns h st
                  | None => Undefined
                  end).

(** *** WinMM *)
Definition midiInGetNumDevs (os : Winmm) : M Z :=
  fun st => ([GetNumDevs], Returns (numDevs os) st).

Definition midiInClose (h : HMIDIIN) : M unit := emit (Close h).

Definition midiInOpen (os : Winmm) (slot : Z) : M (MMRESULT * HMIDIIN) :=
  fun st => ([Open slot], Returns (openResult os slot) st).

Definition midiInStart (os : Winmm) (h : HMIDIIN) : M MMRESULT :=
  fun st => ([Start h], Returns (startResult os h) st).

(** ** The plug-in *)

(** [MyMidiInProc]; [junk] is the content of the byte that the [Message]
    constructor leaves unwritten. *)
Definition MyMidiInProc (junk : Z) (hMidiIn : HMIDIIN) (wMsg : Z)
    (dwInstance dwParam1 dwParam2 : Z) : M unit :=
  if wMsg =? MIM_DATA then
    let status := Z.land dwParam1 255 in
    let data1 := Z.land (Z.shiftr dwParam1 8) 255 in
    let data2 := Z.land (Z.shiftr dwParam1 16) 255 in
    messageQueueLock_lock ;;
    messageQueue_push (Message_ctor junk hMidiIn status data1 data2) ;;
    messageQueueLock_unlock
  else ret tt.

(** [for (auto& handle : handles) midiInClose(handle);] *)
Fixpoint close_loop (hs : list HMIDIIN) : M unit :=
  match hs with
  | [] => ret tt
  | handle :: hs' => midiInClose handle ;; close_loop hs'
  end.

(** [for (int i = 0; i < deviceCount; i++) ...], with [count] iterations
    left and the loop variable at [i]. *)
Fixpoint open_loop (os : Winmm) (count : nat) (i : Z) : M unit :=
  match count with
  | O => ret tt
  | S count' =>
      r <- midiInOpen os i ;;
      assert (fst r =? MMSYSERR_NOERROR) ;;
      result <- midiInStart os (snd r) ;;
      assert (result =? MMSYSERR_NOERROR) ;;
      handles_push_back (snd r) ;;
      open_loop os count' (i + 1)
  end.

Section Target.

Variable tgt : Target.

Definition ResetPluginIfRequired (os : Winmm) : M unit :=
  n <- midiInGetNumDevs os ;;
  let deviceCount := to_int n in
  size <- handles_size ;;
  if to_size_t tgt deviceCount =? size then ret tt
  else
    hs <- handles_get ;;
    close_loop hs ;;
    handles_resize0 ;;
    messageQueue_swap_empty ;;
    open_loop os (Z.to_nat deviceCount) 0.

Definition UnityMIDIReceiver_CountEndpoints (os : Winmm) : M Z :=
  ResetPluginIfRequired os ;;
  size <- handles_size ;;
  ret (to_int size).

Definition UnityMIDIReceiver_GetEndpointIDAtIndex (index : Z) : M Z :=
  size <- handles_size ;;
  if (0 <=? index) && (index <? to_int size) then
    h <- handles_at index ;;
    ret (ConvertHandle h)
  else ret 0.

Definition UnityMIDIReceiver_DequeueIncomingData (os : Winmm) : M Z :=
  ResetPluginIfRequired os ;;
  e <- messageQueue_empty ;;
  if e then ret 0
  else
    messageQueueLock_lock ;;
    m <- messageQueue_back ;;
    messageQueue_pop ;;
    messageQueueLock_unlock ;;
    ret (uint64Value m).

End Target.

(** ** Predicates on traces *)

(** Every queue access happens with the mutex held, except the accesses
    [allowed] lets through; [held] tells whether the mutex is held at the
    start of the trace. *)
Fixpoint guarded_from (allowed : QueueOp -> bool) (held : bool) (t : list Event)
  : bool :=
  match t with
  | [] => true
  | Lock :: t' => guarded_from allowed true t'
  | Unlock :: t' => guarded_from allowed false t'
  | Queue op :: t' => (held || allowed op) && guarded_from allowed held t'
  | _ :: t' => guarded_from allowed held t'
  end.


(** The two accesses the plug-in makes without taking the mutex. *)
Definition unlocked_access (op : QueueOp) : bool :=
  match op with
  | QEmpty | QSwap => true
  | _ => false
  end.

(** Closing, opening or starting a session. *)
Definition session_work (e : Event) : bool :=
  match e with
  | Close _ | Open _ | Start _ => true
  | _ => false
  end.

Definition no_session_work (t : list Event) : bool :=
  forallb (fun e => negb (session_work e)) t.

(** ** Device slots *)

(** The slots [i, i+1, ..., i+count-1]. *)
Fixpoint slots_from (i : Z) (count : nat) : list Z :=
  match count with
  | O => []
  | S count' => i :: slots_from (i + 1) count'
  end.

Definition slots (n : Z) : list Z := slots_from 0 (Z.to_nat n).

(** The handle [midiInOpen] stores for a slot. *)
Definition opened (os : Winmm) (slot : Z) : HMIDIIN := snd (openResult os slot).

(** Both [midiInOpen] and [midiInStart] succeed for the slot. *)
Definition slot_ok (os : Winmm) (slot : Z) : Prop :=
  fst (openResult os slot) = MMSYSERR_NOERROR /\
  startResult os (opened os slot) = MMSYSERR_NOERROR.

Definition slot_okb (os : Winmm) (slot : Z) : bool :=
  (fst (openResult os slot) =? MMSYSERR_NOERROR) &&
  (startResult os (opened os slot) =? MMSYSERR_NOERROR).

(** A value of a [uint8_t]. *)
Definition is_byte (b : Z) : Prop := 0 <= b < 256.

(** The WinMM calls one iteration of the opening loop makes. *)
Definition session_events (os : Winmm) (slot : Z) : list Event :=
  [Open slot; Start (opened os slot)].

(** The comparison [deviceCount == handles.size()]. *)
Definition count_matches (tgt : Target) (os : Winmm) (st : Plugin) : bool :=
  to_size_t tgt (to_int (numDevs os)) =? Z.of_nat (length (handles st)).

(** The events of the reset function: no mutex operation, and no access
    to the queue but the swap. *)
Definition reset_event (e : Event) : Prop :=
  match e with
  | Lock | Unlock => False
  | Queue op => op = QSwap
  | _ => True
  end.

(** ** Concrete environments and states *)

(** Every slot opens, with handle [4096 + 16 * slot], and starts. *)
Definition devices (n : Z) : Winmm :=
  {| numDevs := n;
     openResult := fun slot => (MMSYSERR_NOERROR, 4096 + 16 * slot);
     startResult := fun _ => MMSYSERR_NOERROR |}.

(** Two devices, the second of which cannot be opened
    ([MMSYSERR_ALLOCATED] is 4). *)
Definition second_device_busy : Winmm :=
  {| numDevs := 2;
     openResult := fun slot => (if slot =? 1 then 4 else MMSYSERR_NOERROR,
                                4096 + 16 * slot);
     startResult := fun _ => MMSYSERR_NOERROR |}.

(** Note on, key 60, velocity 127; note on, key 62, velocity 100;
    note off, key 60: the parameter words [midiInProc] receives. *)
Definition note_on_60 : Z := 8338576.    (* 0x7F3C90 *)
Definition note_on_62 : Z := 6569616.    (* 0x643E90 *)
Definition note_off_60 : Z := 15488.     (* 0x003C80 *)

(** Two open sessions and one queued event from the first of them. *)
Definition two_sessions_one_event : Plugin :=
  {| handles := [4096; 4112];
     messageQueue := [Message_ctor 0 4096 144 60 127] |}.

(** Two open sessions and two queued events, pushed in this order. *)
Definition two_sessions_two_events : Plugin :=
  {| handles := [4096; 4112];
     messageQueue := [Message_ctor 0 4096 144 60 127;
                      Message_ctor 0 4112 144 62 100] |}.

(** The polling scenario: the consumer counts the endpoints, three events
    arrive from the endpoints at index 0, 1 and 0, and the consumer polls
    four times.  The result is the count, the three values pushed and the
    four values polled. *)
Definition three_events_scenario : M (Z * list Z * list Z) :=
  n <- UnityMIDIReceiver_CountEndpoints Win32 (devices 2) ;;
  MyMidiInProc 0 4096 MIM_DATA 0 note_on_60 0 ;;
  MyMidiInProc 0 4112 MIM_DATA 0 note_on_62 0 ;;
  MyMidiInProc 0 4096 MIM_DATA 0 note_off_60 0 ;;
  v1 <- UnityMIDIReceiver_DequeueIncomingData Win32 (devices 2) ;;
  v2 <- UnityMIDIReceiver_DequeueIncomingData Win32 (devices 2) ;;
  v3 <- UnityMIDIReceiver_DequeueIncomingData Win32 (devices 2) ;;
  v4 <- UnityMIDIReceiver_DequeueIncomingData Win32 (devices 2) ;;
  ret (n,
       [uint64Value (Message_ctor 0 4096 144 60 127);
        uint64Value (Message_ctor 0 4112 144 62 100);
        uint64Value (Message_ctor 0 4096 128 60 0)],
       [v1; v2; v3; v4]).

(** One open session, with handle [0x1234], and one queued event from it:
    status [0x90], data bytes 60 and 127. *)
Definition one_session_one_event : Plugin :=
  {| handles := [4660];
     messageQueue := [Message_ctor 0 4660 144 60 127] |}.

(** ** The endpoint name query *)

(** What WinMM answers to the two queries of
    [UnityMIDIReceiver_GetEndpointName]: for a handle, the result of
    [midiInGetID] with the device identifier it stores; for a device
    identifier and the previous content of the caller's [szPname], the
    result of [midiInGetDevCaps] with the content it leaves there. *)
Record WinmmCaps := mkWinmmCaps {
  getIDResult : HMIDIIN -> MMRESULT * Z;
  devCapsResult : Z -> String.string -> MMRESULT * String.string
}.

(** The [const char*] the name query returns: [NULL], or the address of
    [caps.szPname] in the function's [static MIDIINCAPS caps]. *)
Inductive NamePtr :=
| NullName
| CapsName.

(** [UnityMIDIReceiver_GetEndpointName]; [caps] is the content of
    [szPname] in the static buffer before the call, and the result pairs
    the returned pointer with the content after it.  The globals are only
    read. *)
Definition UnityMIDIReceiver_GetEndpointName (names : WinmmCaps) (id : Z)
    (st : Plugin) (caps : String.string) : NamePtr * String.string :=
  match find (fun h => ConvertHandle h =? id) (handles st) with
  | None => (NullName, caps)
  | Some h =>
      let r := getIDResult names h in
      if negb (fst r =? MMSYSERR_NOERROR) then (NullName, caps)
      else
        let deviceID := snd r in
        let r' := devCapsResult names deviceID caps in
        if negb (fst r' =? MMSYSERR_NOERROR) then (NullName, snd r')
        else (CapsName, snd r')
  end.

(** The string a returned pointer designates when the static buffer
    holds [caps]. *)
Definition name_at (p : NamePtr) (caps : String.string) : option String.string :=
  match p with
  | NullName => None
  | CapsName => Some caps
  end.

(** ** Sequences of calls *)

(** One call into the plug-in: by WinMM (the callback) or by the host
    (the exported functions that use the globals). *)
Inductive PluginCall :=
| CallMidiInProc (junk : Z) (hMidiIn : HMIDIIN) (wMsg dwInstance dwParam1 dwParam2 : Z)
| CallCountEndpoints (os : Winmm)
| CallGetEndpointIDAtIndex (index : Z)
| CallDequeueIncomingData (os : Winmm).

(** The call, with its return value (0 for the callback, which returns
    nothing). *)
Definition perform (tgt : Target) (c : PluginCall) : M Z :=
  match c with
  | CallMidiInProc junk hMidiIn wMsg dwInstance dwParam1 dwParam2 =>
      MyMidiInProc junk hMidiIn wMsg dwInstance dwParam1 dwParam2 ;; ret 0
  | CallCountEndpoints os => UnityMIDIReceiver_CountEndpoints tgt os
  | CallGetEndpointIDAtIndex index => UnityMIDIReceiver_GetEndpointIDAtIndex index
  | CallDequeueIncomingData os => UnityMIDIReceiver_DequeueIncomingData tgt os
  end.

(** The calls one after the other, each running to its end before the
    next starts; the result lists the return values. *)
Fixpoint perform_all (tgt : Target) (cs : list PluginCall) : M (list Z) :=
  match cs with
  | [] => ret []
  | c :: cs' =>
      v <- perform tgt c ;;
      vs <- perform_all tgt cs' ;;
      ret (v :: vs)
  end.

(** [n] polls of the queue in a row. *)
Fixpoint poll (tgt : Target) (os : Winmm) (n : nat) : M (list Z) :=
  match n with
  | O => ret []
  | S n' =>
      v <- UnityMIDIReceiver_DequeueIncomingData tgt os ;;
      vs <- poll tgt os n' ;;
      ret (v :: vs)
  end.

(** A short MIDI message as the callback receives it: the handle of its
    session and the parameter word. *)
Definition ShortMessage : Type := HMIDIIN * Z.

(** The message the callback queues for it. *)
Definition queued_message (junk : Z) (e : ShortMessage) : Message :=
  Message_ctor junk (fst e) (Z.land (snd e) 255)
    (Z.land (Z.shiftr (snd e) 8) 255) (Z.land (Z.shiftr (snd e) 16) 255).

(** Each message arrives and is polled before the next arrives. *)
Fixpoint arrive_and_poll (tgt : Target) (os : Winmm) (junk : Z)
    (es : list ShortMessage) : M (list Z) :=
  match es with
  | [] => ret []
  | e :: es' =>
      MyMidiInProc junk (fst e) MIM_DATA 0 (snd e) 0 ;;
      v <- UnityMIDIReceiver_DequeueIncomingData tgt os ;;
      vs <- arrive_and_poll tgt os junk es' ;;
      ret (v :: vs)
  end.

(** Whether the mutex is held after a trace, [held] telling whether it is
    held before. *)
Fixpoint mutex_after (held : bool) (t : list Event) : bool :=
  match t with
  | [] => held
  | Lock :: t' => mutex_after true t'
  | Unlock :: t' => mutex_after false t'
  | _ :: t' => mutex_after held t'
  end.


(** The mutex discipline of one trace, started with the mutex free. *)
Definition disciplined (t : list Event) : Prop :=
  guarded_from unlocked_access false t = true /\ mutex_after false t = false.

(** The device count a call is answered, for the calls that ask for it. *)
Definition observed_count (c : PluginCall) : option Z :=
  match c with
  | CallCountEndpoints os | CallDequeueIncomingData os => Some (numDevs os)
  | _ => None
  end.

(** The call observes no other device count than [n]. *)
Definition observes_only (n : Z) (c : PluginCall) : Prop :=
  match observed_count c with
  | Some n' => n' = n
  | None => True
  end.

(** Two devices with their names: handle [4096 + 16 * slot] has device
    identifier [slot]. *)
Definition two_named_devices : WinmmCaps :=
  {| getIDResult := fun h => (MMSYSERR_NOERROR, (h - 4096) / 16);
     devCapsResult := fun deviceID _ =>
       (MMSYSERR_NOERROR,
        if deviceID =? 0 then "Keyboard"%string else "Pad"%string) |}.

(** ** Tactics *)

(** Linear arithmetic with divisions and remainders by constants. *)
Ltac zlia := Z.div_mod_to_equations; lia.

Ltac run :=
  unfold bind, messageQueueLock_lock, messageQueueLock_unlock,
    messageQueue_empty, messageQueue_back, messageQueue_pop, messageQueue_push,
    messageQueue_swap_empty, handles_size, handles_get, handles_resize0,
    handles_push_back, midiInGetNumDevs, midiInClose, midiInOpen, midiInStart,
    ret, emit, assert;
  cbn [fst snd app].

(** ** Integer lemmas *)

Lemma to_int_range x : -2147483648 <= to_int x <= INT_MAX.
Proof. unfold to_int, INT_MAX. zlia. Qed.

Lemma to_int_small x : 0 <= x <= INT_MAX -> to_int x = x.
Proof. unfold to_int, INT_MAX. zlia. Qed.

Lemma to_int_le x : 0 <= x -> to_int x <= x.
Proof. unfold to_int. zlia. Qed.

Lemma to_size_t_small tgt x : 0 <= x <= INT_MAX -> to_size_t tgt x = x.
Proof.
  unfold to_size_t, INT_MAX. intros H.
  apply Z.mod_small. destruct tgt; cbn; zlia.
Qed.

Lemma to_size_t_negative tgt x :
  -2147483648 <= x < 0 -> INT_MAX < to_size_t tgt x.
Proof.
  unfold to_size_t, INT_MAX. intros H.
  destruct tgt; cbn [pointer_bits].
  - change (2 ^ 32) with 4294967296. zlia.
  - change (2 ^ 64) with 18446744073709551616. zlia.
Qed.

Lemma bits_div_mod hi lo v :
  0 <= lo <= hi -> bits hi lo v = (v / 2 ^ lo) mod 2 ^ (hi - lo + 1).
Proof.
  intros H. unfold bits.
  rewrite Z.land_ones by lia. rewrite Z.shiftr_div_pow2 by zlia. reflexivity.
Qed.

Lemma land_255_range x : 0 <= Z.land x 255 < 256.
Proof.
  change 255 with (Z.ones 8). rewrite Z.land_ones by zlia.
  change (2 ^ 8) with 256. zlia.
Qed.

(** ** The representation of messages *)

Lemma le_split_combine bs :
  Forall is_byte bs -> le_split (length bs) (le_combine bs) = bs.
Proof.
  induction 1 as [|b bs Hb _ IH]; cbn [length le_split le_combine].
  - reflexivity.
  - unfold is_byte in Hb. f_equal.
    + unfold to_uint8. zlia.
    + replace ((b + 256 * le_combine bs) / 256) with (le_combine bs) by zlia.
      exact IH.
Qed.

Lemma source_bytes s :
  0 <= s < 4294967296 ->
  le_combine [to_uint8 s; to_uint8 (s / 256); to_uint8 (s / 65536);
              to_uint8 (s / 16777216)] = s.
Proof. intros H. cbn [le_combine]. unfold to_uint8. zlia. Qed.

Lemma object_bytes_are_bytes m :
  wf_Message m -> Forall is_byte (object_bytes m).
Proof.
  intros (Hs & H1 & H2 & H3 & H4). unfold object_bytes, is_byte, to_uint8.
  repeat constructor; zlia.
Qed.

Lemma Message_of_uint64_Value m :
  wf_Message m -> Message_of_uint64 (uint64Value m) = m.
Proof.
  intros Hwf. unfold Message_of_uint64, uint64Value.
  change 8%nat with (length (object_bytes m)).
  rewrite le_split_combine by (apply object_bytes_are_bytes; exact Hwf).
  unfold object_bytes. rewrite source_bytes by apply Hwf.
  destruct m; reflexivity.
Qed.

Lemma uint64Value_sum m :
  wf_Message m ->
  uint64Value m =
    source m + 4294967296 * status m + 1099511627776 * data1 m
    + 281474976710656 * data2 m + 72057594037927936 * padding m.
Proof.
  intros Hwf. unfold uint64Value, object_bytes.
  pose proof (source_bytes (source m) (proj1 Hwf)) as Hs.
  cbn [le_combine] in *. zlia.
Qed.

Lemma Message_ctor_wf junk h aStatus aData1 aData2 :
  0 <= aStatus < 256 -> 0 <= aData1 < 256 -> 0 <= aData2 < 256 ->
  wf_Message (Message_ctor junk h aStatus aData1 aData2).
Proof.
  intros H1 H2 H3. unfold wf_Message, Message_ctor, ConvertHandle; cbn.
  unfold to_uint32, to_uint8. zlia.
Qed.

(** ** Running monadic code *)

Lemma bind_Returns {A B} (m : M A) (f : A -> M B) st t a st' :
  m st = (t, Returns a st') ->
  bind m f st = (t ++ trace_of (f a st'), outcome_of (f a st')).
Proof.
  intros H. unfold bind, trace_of, outcome_of. rewrite H.
  destruct (f a st'); reflexivity.
Qed.

Lemma trace_of_bind {A B} (m : M A) (f : A -> M B) st :
  trace_of (bind m f st) =
  trace_of (m st) ++
    match outcome_of (m st) with
    | Returns a st' => trace_of (f a st')
    | _ => []
    end.
Proof.
  unfold bind, trace_of, outcome_of.
  destruct (m st) as [t [a st'| |]]; cbn; try (rewrite app_nil_r; reflexivity).
  destruct (f a st'); reflexivity.
Qed.

Lemma Forall_trace_bind {A B} (P : Event -> Prop) (m : M A) (f : A -> M B) st :
  Forall P (trace_of (m st)) ->
  (forall a st', Forall P (trace_of (f a st'))) ->
  Forall P (trace_of (bind m f st)).
Proof.
  intros Hm Hf. rewrite trace_of_bind. apply Forall_app. split; [exact Hm|].
  destruct (outcome_of (m st)); auto.
Qed.

(** ** The two loops of [ResetPluginIfRequired] *)

Lemma slot_okb_spec os slot : slot_okb os slot = true <-> slot_ok os slot.
Proof.
  unfold slot_okb, slot_ok. rewrite andb_true_iff, !Z.eqb_eq. reflexivity.
Qed.

Lemma In_slots_from j i count :
  In j (slots_from i count) <-> i <= j < i + Z.of_nat count.
Proof.
  revert i. induction count as [|count IH]; intros i; cbn [slots_from In].
  - lia.
  - rewrite IH. lia.
Qed.

Lemma In_slots j n : In j (slots n) <-> 0 <= j < n.
Proof. unfold slots. rewrite In_slots_from. lia. Qed.

Lemma length_slots_from i count : length (slots_from i count) = count.
Proof.
  revert i. induction count as [|count IH]; intros i; cbn; [|rewrite IH]; reflexivity.
Qed.

Lemma forallb_slots os n :
  forallb (slot_okb os) (slots n) = true <->
  (forall i, 0 <= i < n -> slot_ok os i).
Proof.
  rewrite forallb_forall. split; intros H i Hi.
  - apply slot_okb_spec, H, In_slots, Hi.
  - apply slot_okb_spec, H, In_slots, Hi.
Qed.

Lemma close_loop_run hs st : close_loop hs st = (map Close hs, Returns tt st).
Proof.
  induction hs as [|h hs IH]; cbn [close_loop map].
  - reflexivity.
  - run. rewrite IH. reflexivity.
Qed.

Lemma open_loop_ok os count i st :
  forallb (slot_okb os) (slots_from i count) = true ->
  open_loop os count i st =
    (flat_map (session_events os) (slots_from i count),
     Returns tt {| handles := handles st ++ map (opened os) (slots_from i count);
                   messageQueue := messageQueue st |}).
Proof.
  revert i st. induction count as [|count IH]; intros i st;
    cbn [open_loop slots_from forallb flat_map map].
  - intros _. rewrite app_nil_r. destruct st; reflexivity.
  - intros H. apply andb_true_iff in H as [Hi H].
    apply andb_true_iff in Hi as [Ho Hs]. unfold opened in Hs.
    run. rewrite Ho. cbn. rewrite Hs. cbn.
    rewrite (IH (i + 1) _ H). cbn. rewrite <- app_assoc. reflexivity.
Qed.

Lemma open_loop_failed os count i st :
  forallb (slot_okb os) (slots_from i count) = false ->
  outcome_of (open_loop os count i st) = AssertFailed.
Proof.
  revert i st. induction count as [|count IH]; intros i st;
    cbn [open_loop slots_from forallb].
  - discriminate.
  - intros H. unfold slot_okb at 1, opened in H. run.
    destruct (fst (openResult os i) =? MMSYSERR_NOERROR); cbn; [|reflexivity].
    destruct (startResult os (snd (openResult os i)) =? MMSYSERR_NOERROR);
      cbn; [|reflexivity].
    cbn in H. specialize (IH (i + 1)
      {| handles := handles st ++ [snd (openResult os i)];
         messageQueue := messageQueue st |} H).
    unfold outcome_of in *.
    destruct (open_loop os count (i + 1) _) as [t o]. cbn in *. exact IH.
Qed.

Lemma open_loop_trace os count i st :
  Forall (fun e => session_work e = true) (trace_of (open_loop os count i st)).
Proof.
  revert i st. induction count as [|count IH]; intros i st; cbn [open_loop].
  - constructor.
  - repeat (apply Forall_trace_bind; [|intros ? ?]);
      try (cbn; repeat constructor; fail); try apply IH.
    all: unfold assert, trace_of; cbn; constructor.
Qed.

(** ** [ResetPluginIfRequired] *)

Lemma count_matches_iff tgt os st :
  0 <= numDevs os <= INT_MAX ->
  count_matches tgt os st = true <-> numDevs os = Z.of_nat (length (handles st)).
Proof.
  intros Hn. unfold count_matches. rewrite Z.eqb_eq.
  rewrite to_int_small, to_size_t_small by lia. reflexivity.
Qed.

Lemma Reset_stable tgt os st :
  count_matches tgt os st = true ->
  ResetPluginIfRequired tgt os st = ([GetNumDevs], Returns tt st).
Proof.
  unfold count_matches, ResetPluginIfRequired. intros H. run. rewrite H. reflexivity.
Qed.

Lemma Reset_rebuilds tgt os st :
  count_matches tgt os st = false ->
  forallb (slot_okb os) (slots (to_int (numDevs os))) = true ->
  ResetPluginIfRequired tgt os st =
    (GetNumDevs :: map Close (handles st) ++ Queue QSwap ::
       flat_map (session_events os) (slots (to_int (numDevs os))),
     Returns tt {| handles := map (opened os) (slots (to_int (numDevs os)));
                   messageQueue := [] |}).
Proof.
  unfold count_matches, ResetPluginIfRequired, slots. intros H Hok. run.
  rewrite H, close_loop_run. cbn.
  rewrite (open_loop_ok os _ 0 _ Hok). cbn. reflexivity.
Qed.

Lemma Reset_aborts tgt os st :
  count_matches tgt os st = false ->
  forallb (slot_okb os) (slots (to_int (numDevs os))) = false ->
  outcome_of (ResetPluginIfRequired tgt os st) = AssertFailed.
Proof.
  unfold count_matches, ResetPluginIfRequired, slots. intros H Hbad. run.
  rewrite H, close_loop_run. cbn.
  pose proof (open_loop_failed os _ 0 {| handles := []; messageQueue := [] |} Hbad)
    as Hf.
  unfold outcome_of in *. destruct (open_loop os _ 0 _) as [t o].
  cbn in *. exact Hf.
Qed.

Lemma Reset_trace tgt os st :
  Forall reset_event (trace_of (ResetPluginIfRequired tgt os st)).
Proof.
  unfold ResetPluginIfRequired.
  apply Forall_trace_bind; [repeat constructor | intros n st1].
  apply Forall_trace_bind; [constructor | intros size st2].
  destruct (_ =? _); [constructor|].
  apply Forall_trace_bind; [constructor | intros hs st3].
  apply Forall_trace_bind; [| intros [] st4].
  { rewrite close_loop_run. cbn. apply Forall_forall. intros e He.
    apply in_map_iff in He as (h & <- & _). exact I. }
  apply Forall_trace_bind; [constructor | intros [] st5].
  apply Forall_trace_bind; [repeat constructor | intros [] st6].
  eapply Forall_impl; [|apply open_loop_trace].
  intros [] He; cbn in *; try discriminate; exact I.
Qed.


(** ** The exported functions and the callback, case by case *)

Lemma Count_stable tgt os st :
  count_matches tgt os st = true ->
  UnityMIDIReceiver_CountEndpoints tgt os st =
    ([GetNumDevs], Returns (to_int (Z.of_nat (length (handles st)))) st).
Proof.
  intros H. unfold UnityMIDIReceiver_CountEndpoints.
  rewrite (bind_Returns _ _ _ _ _ _ (Reset_stable tgt os st H)). reflexivity.
Qed.

Lemma Dequeue_stable_empty tgt os st :
  count_matches tgt os st = true ->
  messageQueue st = [] ->
  UnityMIDIReceiver_DequeueIncomingData tgt os st =
    ([GetNumDevs; Queue QEmpty], Returns 0 st).
Proof.
  intros H Hq. unfold UnityMIDIReceiver_DequeueIncomingData.
  rewrite (bind_Returns _ _ _ _ _ _ (Reset_stable tgt os st H)).
  destruct st as [hs mq]. cbn [messageQueue] in Hq. subst mq. reflexivity.
Qed.

(** With the device count unchanged and a queue [m :: q], the call
    returns the value of the element at the back, [last q m], and removes
    the element at the front, [m]. *)
Lemma Dequeue_stable_nonempty tgt os st m q :
  count_matches tgt os st = true ->
  messageQueue st = m :: q ->
  UnityMIDIReceiver_DequeueIncomingData tgt os st =
    ([GetNumDevs; Queue QEmpty; Lock; Queue QBack; Queue QPop; Unlock],
     Returns (uint64Value (last q m))
             {| handles := handles st; messageQueue := q |}).
Proof.
  intros H Hq. unfold UnityMIDIReceiver_DequeueIncomingData.
  rewrite (bind_Returns _ _ _ _ _ _ (Reset_stable tgt os st H)).
  destruct st as [hs mq]. cbn [messageQueue] in Hq. subst mq. reflexivity.
Qed.

(** After a rebuild the queue is empty and the call returns 0. *)
Lemma Dequeue_rebuilds tgt os st :
  count_matches tgt os st = false ->
  forallb (slot_okb os) (slots (to_int (numDevs os))) = true ->
  outcome_of (UnityMIDIReceiver_DequeueIncomingData tgt os st) =
    Returns 0 {| handles := map (opened os) (slots (to_int (numDevs os)));
                 messageQueue := [] |}.
Proof.
  intros H Hok. unfold UnityMIDIReceiver_DequeueIncomingData.
  rewrite (bind_Returns _ _ _ _ _ _ (Reset_rebuilds tgt os st H Hok)).
  reflexivity.
Qed.

Lemma Dequeue_aborts tgt os st :
  count_matches tgt os st = false ->
  forallb (slot_okb os) (slots (to_int (numDevs os))) = false ->
  outcome_of (UnityMIDIReceiver_DequeueIncomingData tgt os st) = AssertFailed.
Proof.
  intros H Hbad. pose proof (Reset_aborts tgt os st H Hbad) as Hr.
  unfold UnityMIDIReceiver_DequeueIncomingData, bind, outcome_of in *.
  destruct (ResetPluginIfRequired tgt os st) as [t o]. cbn in Hr. subst o.
  reflexivity.
Qed.

Lemma last_nonempty_In {A} (q : list A) (d : A) : q <> [] -> In (last q d) q.
Proof.
  induction q as [|x q IH]; intros Hne; [congruence|].
  destruct q as [|y q'].
  - left. reflexivity.
  - right. apply IH. discriminate.
Qed.

Lemma last_In {A} (q : list A) (m : A) : In (last q m) (m :: q).
Proof.
  destruct q as [|x q].
  - left. reflexivity.
  - right. apply last_nonempty_In. discriminate.
Qed.

(** A returned nonzero value is the [uint64Value] of a queued message. *)
Lemma Dequeue_nonzero tgt os st t v st' :
  UnityMIDIReceiver_DequeueIncomingData tgt os st = (t, Returns v st') ->
  v <> 0 ->
  exists m, In m (messageQueue st) /\ v = uint64Value m.
Proof.
  intros Hrun Hv.
  destruct (count_matches tgt os st) eqn:Hc.
  - destruct (messageQueue st) as [|m q] eqn:Hq.
    + rewrite (Dequeue_stable_empty tgt os st Hc Hq) in Hrun.
      injection Hrun as _ Hz _. congruence.
    + rewrite (Dequeue_stable_nonempty tgt os st m q Hc Hq) in Hrun.
      injection Hrun as _ Hz _. exists (last q m). split; [apply last_In | congruence].
  - destruct (forallb (slot_okb os) (slots (to_int (numDevs os)))) eqn:Hok.
    + pose proof (Dequeue_rebuilds tgt os st Hc Hok) as Hr.
      rewrite Hrun in Hr. cbn in Hr. congruence.
    + pose proof (Dequeue_aborts tgt os st Hc Hok) as Hr.
      rewrite Hrun in Hr. cbn in Hr. discriminate.
Qed.

Lemma MyMidiInProc_data junk hMidiIn dwInstance dwParam1 dwParam2 st :
  MyMidiInProc junk hMidiIn MIM_DATA dwInstance dwParam1 dwParam2 st =
    (let m := Message_ctor junk hMidiIn (Z.land dwParam1 255)
                (Z.land (Z.shiftr dwParam1 8) 255)
                (Z.land (Z.shiftr dwParam1 16) 255) in
     ([Lock; Queue (QPush m); Unlock],
      Returns tt {| handles := handles st;
                    messageQueue := messageQueue st ++ [m] |})).
Proof. reflexivity. Qed.

Lemma MyMidiInProc_other junk hMidiIn wMsg dwInstance dwParam1 dwParam2 st :
  wMsg <> MIM_DATA ->
  MyMidiInProc junk hMidiIn wMsg dwInstance dwParam1 dwParam2 st =
    ([], Returns tt st).
Proof.
  intros H. unfold MyMidiInProc. apply Z.eqb_neq in H. rewrite H. reflexivity.
Qed.

(** The callback keeps the queued messages well formed. *)
Lemma MyMidiInProc_wf junk hMidiIn wMsg dwInstance dwParam1 dwParam2 st t st' :
  Forall wf_Message (messageQueue st) ->
  MyMidiInProc junk hMidiIn wMsg dwInstance dwParam1 dwParam2 st
    = (t, Returns tt st') ->
  Forall wf_Message (messageQueue st').
Proof.
  intros Hwf Hrun. destruct (Z.eq_dec wMsg MIM_DATA) as [->|Hne].
  - rewrite MyMidiInProc_data in Hrun. cbv zeta in Hrun.
    injection Hrun as _ <-. cbn. apply Forall_app. split; [exact Hwf|].
    constructor; [|constructor].
    apply Message_ctor_wf; apply land_255_range.
  - rewrite (MyMidiInProc_other _ _ _ _ _ _ _ Hne) in Hrun.
    injection Hrun as _ <-. exact Hwf.
Qed.

(** So does the dequeue. *)
Lemma Dequeue_wf tgt os st t v st' :
  Forall wf_Message (messageQueue st) ->
  UnityMIDIReceiver_DequeueIncomingData tgt os st = (t, Returns v st') ->
  Forall wf_Message (messageQueue st').
Proof.
  intros Hwf Hrun.
  destruct (count_matches tgt os st) eqn:Hc.
  - destruct (messageQueue st) as [|m q] eqn:Hq.
    + rewrite (Dequeue_stable_empty tgt os st Hc Hq) in Hrun.
      injection Hrun as _ _ <-. rewrite Hq. constructor.
    + rewrite (Dequeue_stable_nonempty tgt os st m q Hc Hq) in Hrun.
      injection Hrun as _ _ <-. cbn. inversion Hwf; assumption.
  - destruct (forallb (slot_okb os) (slots (to_int (numDevs os)))) eqn:Hok.
    + pose proof (Dequeue_rebuilds tgt os st Hc Hok) as Hr.
      rewrite Hrun in Hr. cbn in Hr. injection Hr as _ ->. constructor.
    + pose proof (Dequeue_aborts tgt os st Hc Hok) as Hr.
      rewrite Hrun in Hr. cbn in Hr. discriminate.
Qed.

(** * The claims of the specification *)

(** ** C1: dequeue order *)

(** C1 fails on the code.  With two events queued, the dequeue returns
    the value of the second, newer one ([messageQueue.back()]) while
    [pop()] removes the first, older one, so the newer event stays queued
    and is returned again.  In the polling scenario of the specification
    (two devices, three events pushed for the endpoints at index 0, 1 and
    0, four polls) the consumer observes the third event three times,
    then 0, and never the first two events. *)
Theorem C1_dequeue_returns_newest :
  UnityMIDIReceiver_DequeueIncomingData Win32 (devices 2) two_sessions_two_events
    = ([GetNumDevs; Queue QEmpty; Lock; Queue QBack; Queue QPop; Unlock],
       Returns (uint64Value (Message_ctor 0 4112 144 62 100))
               {| handles := [4096; 4112];
                  messageQueue := [Message_ctor 0 4112 144 62 100] |}) /\
  outcome_of (three_events_scenario initial)
    = Returns (2,
               [35813911215214592; 28216285867282448; 66520453484544],
               [66520453484544; 66520453484544; 66520453484544; 0])
              {| handles := [4096; 4112]; messageQueue := [] |}.
Proof. split; vm_compute; reflexivity. Qed.

(** ** C2: layout of the returned value *)

(** C2 as the specification states it fails.  The event with endpoint
    identifier [0x1234], status [0x90], data1 60 and data2 127 is returned
    as the nonzero value [0x007F3C9000001234]: its bits 63-32 are not the
    endpoint identifier, bits 31-24 not the status, bits 23-16 not data1,
    bits 15-8 not data2, and its low byte is not zero. *)
Lemma C2_documented_layout_counterexample :
  let v := 35813911215215156 in
  UnityMIDIReceiver_DequeueIncomingData Win32 (devices 1) one_session_one_event
    = ([GetNumDevs; Queue QEmpty; Lock; Queue QBack; Queue QPop; Unlock],
       Returns v {| handles := [4660]; messageQueue := [] |}) /\
  v <> 0 /\
  Documented.endpointId v <> 4660 /\
  Documented.status v <> 144 /\
  Documented.data1 v <> 60 /\
  Documented.data2 v <> 127 /\
  Documented.low_byte v <> 0.
Proof. cbv zeta. repeat split; try reflexivity; vm_compute; discriminate. Qed.

(** C2, amended.  Every nonzero value the dequeue returns is the
    [uint64Value] of a queued message [m], and decodes as: endpoint
    identifier in bits 31-0, status in bits 39-32, data1 in bits 47-40,
    data2 in bits 55-48; bits 63-56 hold the padding byte of the union,
    which the constructor does not write. *)
Theorem C2_dequeue_value_layout tgt os st t v st' :
  Forall wf_Message (messageQueue st) ->
  UnityMIDIReceiver_DequeueIncomingData tgt os st = (t, Returns v st') ->
  v <> 0 ->
  exists m, In m (messageQueue st) /\ v = uint64Value m /\
    bits 31 0 v = source m /\
    bits 39 32 v = status m /\
    bits 47 40 v = data1 m /\
    bits 55 48 v = data2 m /\
    bits 63 56 v = padding m.
Proof.
  intros Hwf Hrun Hv.
  destruct (Dequeue_nonzero tgt os st t v st' Hrun Hv) as (m & Hin & ->).
  exists m. split; [exact Hin|]. split; [reflexivity|].
  pose proof (proj1 (Forall_forall _ _) Hwf m Hin) as Hm.
  rewrite (uint64Value_sum m Hm).
  destruct Hm as (Hs & H1 & H2 & H3 & H4).
  rewrite !bits_div_mod by lia.
  change (2 ^ (31 - 0 + 1)) with 4294967296.
  change (2 ^ (39 - 32 + 1)) with 256. change (2 ^ (47 - 40 + 1)) with 256.
  change (2 ^ (55 - 48 + 1)) with 256. change (2 ^ (63 - 56 + 1)) with 256.
  change (2 ^ 0) with 1. change (2 ^ 32) with 4294967296.
  change (2 ^ 40) with 1099511627776. change (2 ^ 48) with 281474976710656.
  change (2 ^ 56) with 72057594037927936.
  repeat split; zlia.
Qed.

Lemma C2_dequeue_value_layout_witness :
  exists m, In m (messageQueue one_session_one_event) /\
    35813911215215156 = uint64Value m /\
    bits 31 0 35813911215215156 = source m /\
    bits 39 32 35813911215215156 = status m /\
    bits 47 40 35813911215215156 = data1 m /\
    bits 55 48 35813911215215156 = data2 m /\
    bits 63 56 35813911215215156 = padding m.
Proof.
  apply (C2_dequeue_value_layout Win32 (devices 1) one_session_one_event
           [GetNumDevs; Queue QEmpty; Lock; Queue QBack; Queue QPop; Unlock]
           35813911215215156 {| handles := [4660]; messageQueue := [] |}).
  - constructor; [|constructor]. unfold wf_Message. cbn. lia.
  - reflexivity.
  - discriminate.
Defined.

(** ** C6: round trip through the 64-bit value *)

(** C6.  An event with endpoint identifier [endpointId], status byte
    [aStatus] and data bytes [aData1], [aData2], stored in a [Message]
    and read back from its [uint64Value], yields the same four fields. *)
Theorem C6_wire_roundtrip junk endpointId aStatus aData1 aData2 :
  0 <= endpointId < 4294967296 ->
  0 <= aStatus < 256 -> 0 <= aData1 < 256 -> 0 <= aData2 < 256 ->
  let v := uint64Value (Message_ctor junk endpointId aStatus aData1 aData2) in
  source (Message_of_uint64 v) = endpointId /\
  status (Message_of_uint64 v) = aStatus /\
  data1 (Message_of_uint64 v) = aData1 /\
  data2 (Message_of_uint64 v) = aData2.
Proof.
  intros He H1 H2 H3 v. subst v.
  rewrite Message_of_uint64_Value by (apply Message_ctor_wf; assumption).
  cbn. unfold ConvertHandle, to_uint32.
  repeat split. apply Z.mod_small. exact He.
Qed.

Lemma C6_wire_roundtrip_witness :
  let v := uint64Value (Message_ctor 0 4660 144 60 127) in
  source (Message_of_uint64 v) = 4660 /\
  status (Message_of_uint64 v) = 144 /\
  data1 (Message_of_uint64 v) = 60 /\
  data2 (Message_of_uint64 v) = 127.
Proof. apply (C6_wire_roundtrip 0 4660 144 60 127); lia. Defined.

(** ** C3: a changed device count rebuilds the sessions *)

(** C3.  When the device count [n] differs from the number of tracked
    sessions and every slot below [n] opens and starts, the refresh closes
    every tracked session, swaps the queue for an empty one, opens and
    starts the slots [0..n-1] in order, and leaves [n] sessions and an
    empty queue; a following count returns [n], does no session work and
    leaves the queue empty. *)
Theorem C3_refresh_rebuilds tgt os st :
  0 <= numDevs os <= INT_MAX ->
  numDevs os <> Z.of_nat (length (handles st)) ->
  (forall i, 0 <= i < numDevs os -> slot_ok os i) ->
  exists st',
    ResetPluginIfRequired tgt os st =
      (GetNumDevs :: map Close (handles st) ++ Queue QSwap ::
         flat_map (fun i => [Open i; Start (opened os i)]) (slots (numDevs os)),
       Returns tt st') /\
    handles st' = map (opened os) (slots (numDevs os)) /\
    messageQueue st' = [] /\
    Z.of_nat (length (handles st')) = numDevs os /\
    UnityMIDIReceiver_CountEndpoints tgt os st' =
      ([GetNumDevs], Returns (numDevs os) st').
Proof.
  intros Hn Hne Hok.
  assert (Hc : count_matches tgt os st = false).
  { apply not_true_is_false. rewrite count_matches_iff by exact Hn. exact Hne. }
  pose proof (Reset_rebuilds tgt os st Hc) as Hr.
  rewrite (to_int_small _ Hn) in Hr.
  specialize (Hr (proj2 (forallb_slots os (numDevs os)) Hok)).
  eexists. split; [exact Hr|]. cbn [handles messageQueue].
  assert (Hlen : Z.of_nat (length (map (opened os) (slots (numDevs os))))
                 = numDevs os).
  { unfold slots. rewrite length_map, length_slots_from. lia. }
  repeat split; try exact Hlen.
  rewrite Count_stable.
  - cbn [handles]. rewrite Hlen, (to_int_small _ Hn). reflexivity.
  - apply count_matches_iff; [exact Hn|]. cbn [handles]. symmetry. exact Hlen.
Qed.

Lemma C3_refresh_rebuilds_witness :
  exists st',
    ResetPluginIfRequired Win32 (devices 3) two_sessions_one_event =
      ([GetNumDevs; Close 4096; Close 4112; Queue QSwap;
        Open 0; Start 4096; Open 1; Start 4112; Open 2; Start 4128],
       Returns tt st') /\
    handles st' = [4096; 4112; 4128] /\
    messageQueue st' = [] /\
    Z.of_nat (length (handles st')) = 3 /\
    UnityMIDIReceiver_CountEndpoints Win32 (devices 3) st' =
      ([GetNumDevs], Returns 3 st').
Proof.
  apply (C3_refresh_rebuilds Win32 (devices 3) two_sessions_one_event).
  - unfold INT_MAX. cbn. lia.
  - cbn. lia.
  - intros i _. split; reflexivity.
Defined.

(** ** C4: an unchanged device count changes nothing *)

(** C4.  When the device count equals the number of tracked sessions the
    refresh only queries the count: the state, queue included, is
    unchanged and no session is closed, opened or started.  And whenever
    a count returns [c] in state [st1], a second count against the same
    devices returns [c] again, leaves [st1] as it is and does no session
    work. *)
Theorem C4_refresh_idempotent tgt os st :
  (0 <= numDevs os <= INT_MAX ->
   numDevs os = Z.of_nat (length (handles st)) ->
   ResetPluginIfRequired tgt os st = ([GetNumDevs], Returns tt st) /\
   UnityMIDIReceiver_CountEndpoints tgt os st =
     ([GetNumDevs], Returns (numDevs os) st)) /\
  (forall t1 c st1,
     UnityMIDIReceiver_CountEndpoints tgt os st = (t1, Returns c st1) ->
     exists t2,
       UnityMIDIReceiver_CountEndpoints tgt os st1 = (t2, Returns c st1) /\
       no_session_work t2 = true).
Proof.
  split.
  - intros Hn Heq.
    assert (Hc : count_matches tgt os st = true)
      by (apply count_matches_iff; assumption).
    split; [apply Reset_stable; exact Hc|].
    rewrite (Count_stable tgt os st Hc), <- Heq, (to_int_small _ Hn). reflexivity.
  - intros t1 c st1 Hrun.
    destruct (count_matches tgt os st) eqn:Hc.
    + rewrite (Count_stable tgt os st Hc) in Hrun.
      injection Hrun as <- <- <-.
      exists [GetNumDevs]. split; [apply Count_stable; exact Hc | reflexivity].
    + destruct (forallb (slot_okb os) (slots (to_int (numDevs os)))) eqn:Hok.
      * unfold UnityMIDIReceiver_CountEndpoints in Hrun.
        rewrite (bind_Returns _ _ _ _ _ _ (Reset_rebuilds tgt os st Hc Hok)) in Hrun.
        cbn in Hrun. injection Hrun as _ <- <-.
        set (dc := to_int (numDevs os)) in *.
        pose proof (to_int_range (numDevs os)) as Hr. fold dc in Hr.
        assert (Hlen : length (map (opened os) (slots dc)) = Z.to_nat dc)
          by (unfold slots; rewrite length_map, length_slots_from; reflexivity).
        destruct (Z_lt_le_dec dc 0) as [Hneg|Hpos].
        -- assert (Hs : slots dc = []) by (unfold slots; destruct dc; try lia; reflexivity).
           rewrite Hs in *. cbn [map length] in *.
           exists [GetNumDevs; Queue QSwap]. split; [|reflexivity].
           assert (Hc' : count_matches tgt os {| handles := []; messageQueue := [] |}
                         = false).
           { unfold count_matches. fold dc. cbn [handles length].
             apply Z.eqb_neq.
             pose proof (to_size_t_negative tgt dc) as Hlt. unfold INT_MAX in *. lia. }
           unfold UnityMIDIReceiver_CountEndpoints.
           assert (Hok' : forallb (slot_okb os) (slots (to_int (numDevs os))) = true)
             by (fold dc; rewrite Hs; reflexivity).
           rewrite (bind_Returns _ _ _ _ _ _ (Reset_rebuilds tgt os _ Hc' Hok')).
           fold dc. rewrite Hs. reflexivity.
        -- exists [GetNumDevs]. split; [|reflexivity].
           apply Count_stable. unfold count_matches. fold dc.
           cbn [handles]. rewrite Hlen. apply Z.eqb_eq.
           rewrite to_size_t_small by lia. lia.
      * pose proof (Reset_aborts tgt os st Hc Hok) as Ha.
        unfold UnityMIDIReceiver_CountEndpoints, bind, outcome_of in *.
        destruct (ResetPluginIfRequired tgt os st) as [t o].
        cbn in Ha. subst o. discriminate.
Qed.

Lemma C4_refresh_idempotent_witness :
  (ResetPluginIfRequired Win32 (devices 2) two_sessions_one_event
     = ([GetNumDevs], Returns tt two_sessions_one_event) /\
   UnityMIDIReceiver_CountEndpoints Win32 (devices 2) two_sessions_one_event
     = ([GetNumDevs], Returns 2 two_sessions_one_event)) /\
  (exists t2,
     UnityMIDIReceiver_CountEndpoints Win32 (devices 2)
       {| handles := [4096; 4112]; messageQueue := [] |}
     = (t2, Returns 2 {| handles := [4096; 4112]; messageQueue := [] |}) /\
     no_session_work t2 = true).
Proof.
  split.
  - apply (proj1 (C4_refresh_idempotent Win32 (devices 2) two_sessions_one_event)).
    + unfold INT_MAX. cbn. lia.
    + reflexivity.
  - apply (proj2 (C4_refresh_idempotent Win32 (devices 2) initial)
             [GetNumDevs; Queue QSwap; Open 0; Start 4096; Open 1; Start 4112]).
    reflexivity.
Defined.

(** ** Accesses made with the mutex free *)








(** ** C5: the mutex and the queue *)



(** ** C7: polling an empty queue *)

(** C7.  With an empty queue and a device count equal to the number of
    tracked sessions, the dequeue returns 0 and leaves the state as it
    was; it takes no mutex and only tests the queue for emptiness. *)
Theorem C7_dequeue_empty tgt os st :
  messageQueue st = [] ->
  0 <= numDevs os <= INT_MAX ->
  numDevs os = Z.of_nat (length (handles st)) ->
  UnityMIDIReceiver_DequeueIncomingData tgt os st =
    ([GetNumDevs; Queue QEmpty], Returns 0 st).
Proof.
  intros Hq Hn Heq. apply Dequeue_stable_empty; [|exact Hq].
  apply count_matches_iff; assumption.
Qed.

Lemma C7_dequeue_empty_witness :
  UnityMIDIReceiver_DequeueIncomingData Win64 (devices 2)
    {| handles := [4096; 4112]; messageQueue := [] |} =
    ([GetNumDevs; Queue QEmpty],
     Returns 0 {| handles := [4096; 4112]; messageQueue := [] |}).
Proof.
  apply (C7_dequeue_empty Win64 (devices 2)
           {| handles := [4096; 4112]; messageQueue := [] |}).
  - reflexivity.
  - unfold INT_MAX. cbn. lia.
  - reflexivity.
Defined.

(** ** C8: endpoint identifier by index *)

(** C8.  The lookup always returns, without changing the state: 0 for a
    negative index and for an index at or beyond the number of sessions,
    and for an index within a vector of at most [INT_MAX] sessions the
    converted handle of the session at that index. *)
Theorem C8_endpoint_id_at_index st index :
  (exists id, UnityMIDIReceiver_GetEndpointIDAtIndex index st = ([], Returns id st)) /\
  (index < 0 \/ Z.of_nat (length (handles st)) <= index ->
   UnityMIDIReceiver_GetEndpointIDAtIndex index st = ([], Returns 0 st)) /\
  (0 <= index < Z.of_nat (length (handles st)) ->
   Z.of_nat (length (handles st)) <= INT_MAX ->
   exists h, nth_error (handles st) (Z.to_nat index) = Some h /\
     UnityMIDIReceiver_GetEndpointIDAtIndex index st
       = ([], Returns (ConvertHandle h) st)).
Proof.
  pose proof (to_int_le (Z.of_nat (length (handles st))) (Nat2Z.is_nonneg _)) as Hle.
  assert (Hin : 0 <= index < Z.of_nat (length (handles st)) ->
                exists h, nth_error (handles st) (Z.to_nat index) = Some h).
  { intros Hi. destruct (nth_error (handles st) (Z.to_nat index)) eqn:E; [eauto|].
    apply nth_error_None in E. lia. }
  destruct st as [hs mq]. cbn [handles] in *.
  unfold UnityMIDIReceiver_GetEndpointIDAtIndex, handles_at. run.
  cbn [handles].
  split; [|split].
  - destruct (0 <=? index) eqn:E0; cbn [andb]; [|eauto].
    destruct (index <? _) eqn:E1; [|eauto].
    apply Z.leb_le in E0. apply Z.ltb_lt in E1.
    destruct Hin as [h Hh]; [lia|].
    assert (E2 : (index <? 0) = false) by (apply Z.ltb_ge; lia).
    cbn [handles]. rewrite E2, Hh. eauto.
  - intros Hout.
    destruct (0 <=? index) eqn:E0; cbn [andb]; [|reflexivity].
    destruct (index <? _) eqn:E1; [|reflexivity].
    apply Z.leb_le in E0. apply Z.ltb_lt in E1. lia.
  - intros Hi Hmax. destruct (Hin Hi) as [h Hh]. exists h. split; [exact Hh|].
    rewrite to_int_small by lia.
    assert (E0 : (0 <=? index) = true) by (apply Z.leb_le; lia).
    assert (E1 : (index <? Z.of_nat (length hs)) = true)
      by (apply Z.ltb_lt; lia).
    assert (E2 : (index <? 0) = false) by (apply Z.ltb_ge; lia).
    rewrite E0, E1. cbn [andb handles]. rewrite E2, Hh. reflexivity.
Qed.

Lemma C8_endpoint_id_at_index_witness :
  UnityMIDIReceiver_GetEndpointIDAtIndex (-1) two_sessions_one_event
    = ([], Returns 0 two_sessions_one_event) /\
  UnityMIDIReceiver_GetEndpointIDAtIndex 2 two_sessions_one_event
    = ([], Returns 0 two_sessions_one_event) /\
  (exists h, nth_error (handles two_sessions_one_event) (Z.to_nat 1) = Some h /\
     UnityMIDIReceiver_GetEndpointIDAtIndex 1 two_sessions_one_event
       = ([], Returns (ConvertHandle h) two_sessions_one_event)).
Proof.
  split; [|split].
  - apply (proj1 (proj2 (C8_endpoint_id_at_index two_sessions_one_event (-1)))).
    left. lia.
  - apply (proj1 (proj2 (C8_endpoint_id_at_index two_sessions_one_event 2))).
    right. cbn. lia.
  - apply (proj2 (proj2 (C8_endpoint_id_at_index two_sessions_one_event 1))).
    + cbn. lia.
    + unfold INT_MAX. cbn. lia.
Defined.

(** ** C9: a failed open or start *)

(** C9.  When every slot below the device count opens and starts, the
    refresh returns: no [assert] fails.  When the refresh runs and some
    slot below the device count fails to open or to start, the refresh
    stops at the failed [assert] and returns no state. *)
Theorem C9_open_failure_is_fatal tgt os st :
  ((forall i, 0 <= i < to_int (numDevs os) -> slot_ok os i) ->
   exists t st', ResetPluginIfRequired tgt os st = (t, Returns tt st')) /\
  (count_matches tgt os st = false ->
   (exists i, 0 <= i < to_int (numDevs os) /\ ~ slot_ok os i) ->
   outcome_of (ResetPluginIfRequired tgt os st) = AssertFailed).
Proof.
  split.
  - intros Hok. apply forallb_slots in Hok.
    destruct (count_matches tgt os st) eqn:Hc.
    + eexists _, _. apply Reset_stable. exact Hc.
    + eexists _, _. apply Reset_rebuilds; assumption.
  - intros Hc (i & Hi & Hbad). apply Reset_aborts; [exact Hc|].
    apply not_true_is_false. intros Hall.
    apply Hbad. exact (proj1 (forallb_slots os _) Hall i Hi).
Qed.

Lemma C9_open_failure_is_fatal_witness :
  (exists t st',
     ResetPluginIfRequired Win32 (devices 2) initial = (t, Returns tt st')) /\
  outcome_of (ResetPluginIfRequired Win32 second_device_busy initial)
    = AssertFailed.
Proof.
  split.
  - apply (proj1 (C9_open_failure_is_fatal Win32 (devices 2) initial)).
    intros i _. split; reflexivity.
  - apply (proj2 (C9_open_failure_is_fatal Win32 second_device_busy initial)).
    + reflexivity.
    + exists 1. split; [cbn; lia|]. intros [H _]. discriminate H.
Defined.

(** ** C10: the callback and the other message kinds *)

(** C10.  Called with [MIM_DATA] the callback appends exactly one event to
    the queue, under the mutex; called with any other message kind it
    returns at once and leaves the state, queue included, unchanged. *)
Theorem C10_callback_only_data junk hMidiIn wMsg dwInstance dwParam1 dwParam2 st :
  (wMsg = MIM_DATA ->
   exists m,
     MyMidiInProc junk hMidiIn wMsg dwInstance dwParam1 dwParam2 st =
       ([Lock; Queue (QPush m); Unlock],
        Returns tt {| handles := handles st;
                      messageQueue := messageQueue st ++ [m] |}) /\
     source m = ConvertHandle hMidiIn /\
     status m = Z.land dwParam1 255 /\
     data1 m = Z.land (Z.shiftr dwParam1 8) 255 /\
     data2 m = Z.land (Z.shiftr dwParam1 16) 255) /\
  (wMsg <> MIM_DATA ->
   MyMidiInProc junk hMidiIn wMsg dwInstance dwParam1 dwParam2 st
     = ([], Returns tt st)).
Proof.
  split.
  - intros ->. eexists. split; [apply MyMidiInProc_data|].
    repeat split.
  - apply MyMidiInProc_other.
Qed.

Lemma C10_callback_only_data_witness :
  (exists m,
     MyMidiInProc 0 4096 MIM_DATA 0 note_on_60 0 initial =
       ([Lock; Queue (QPush m); Unlock],
        Returns tt {| handles := []; messageQueue := [] ++ [m] |}) /\
     source m = ConvertHandle 4096 /\
     status m = Z.land note_on_60 255 /\
     data1 m = Z.land (Z.shiftr note_on_60 8) 255 /\
     data2 m = Z.land (Z.shiftr note_on_60 16) 255) /\
  MyMidiInProc 0 4096 961 0 0 0 two_sessions_one_event
    = ([], Returns tt two_sessions_one_event).
Proof.
  split.
  - apply (proj1 (C10_callback_only_data 0 4096 MIM_DATA 0 note_on_60 0 initial)).
    reflexivity.
  - apply (proj2 (C10_callback_only_data 0 4096 961 0 0 0 two_sessions_one_event)).
    discriminate.
Defined.

(** * Further properties of the code *)

(** ** Outcomes in closed form *)

Lemma outcome_of_bind {A B} (m : M A) (f : A -> M B) st :
  outcome_of (bind m f st) =
    match outcome_of (m st) with
    | Returns a st' => outcome_of (f a st')
    | AssertFailed => AssertFailed
    | Undefined => Undefined
    end.
Proof.
  unfold bind, outcome_of. destruct (m st) as [t [a st'| |]]; cbn; try reflexivity.
  destruct (f a st'); reflexivity.
Qed.

Lemma Reset_outcome tgt os st :
  outcome_of (ResetPluginIfRequired tgt os st) =
    if count_matches tgt os st then Returns tt st
    else if forallb (slot_okb os) (slots (to_int (numDevs os)))
         then Returns tt {| handles := map (opened os) (slots (to_int (numDevs os)));
                            messageQueue := [] |}
         else AssertFailed.
Proof.
  destruct (count_matches tgt os st) eqn:Hc.
  - rewrite (Reset_stable tgt os st Hc). reflexivity.
  - destruct (forallb _ _) eqn:Hok.
    + rewrite (Reset_rebuilds tgt os st Hc Hok). reflexivity.
    + apply Reset_aborts; assumption.
Qed.

Lemma Count_outcome tgt os st :
  outcome_of (UnityMIDIReceiver_CountEndpoints tgt os st) =
    match outcome_of (ResetPluginIfRequired tgt os st) with
    | Returns _ st' => Returns (to_int (Z.of_nat (length (handles st')))) st'
    | AssertFailed => AssertFailed
    | Undefined => Undefined
    end.
Proof.
  unfold UnityMIDIReceiver_CountEndpoints. rewrite outcome_of_bind.
  destruct (outcome_of (ResetPluginIfRequired tgt os st)); reflexivity.
Qed.

Lemma Dequeue_outcome tgt os st :
  outcome_of (UnityMIDIReceiver_DequeueIncomingData tgt os st) =
    match outcome_of (ResetPluginIfRequired tgt os st) with
    | Returns _ st' =>
        match messageQueue st' with
        | [] => Returns 0 st'
        | m :: q => Returns (uint64Value (last q m))
                            {| handles := handles st'; messageQueue := q |}
        end
    | AssertFailed => AssertFailed
    | Undefined => Undefined
    end.
Proof.
  unfold UnityMIDIReceiver_DequeueIncomingData. rewrite outcome_of_bind.
  destruct (outcome_of (ResetPluginIfRequired tgt os st)) as [[] [hs [|m q]]| |];
    reflexivity.
Qed.

Lemma IDAtIndex_value st index :
  UnityMIDIReceiver_GetEndpointIDAtIndex index st =
    ([], Returns
           (if (0 <=? index) && (index <? to_int (Z.of_nat (length (handles st))))
            then ConvertHandle (nth (Z.to_nat index) (handles st) 0)
            else 0) st).
Proof.
  destruct st as [hs mq]. unfold UnityMIDIReceiver_GetEndpointIDAtIndex, handles_at.
  run. cbn [handles].
  destruct (0 <=? index) eqn:E0; cbn [andb]; [|reflexivity].
  destruct (index <? _) eqn:E1; [|reflexivity].
  apply Z.leb_le in E0. apply Z.ltb_lt in E1.
  pose proof (to_int_le (Z.of_nat (length hs)) (Nat2Z.is_nonneg _)) as Hle.
  assert (E2 : (index <? 0) = false) by (apply Z.ltb_ge; lia).
  cbn [handles]. rewrite E2.
  destruct (nth_error hs (Z.to_nat index)) as [h|] eqn:E.
  - do 3 f_equal. symmetry. exact (nth_error_nth _ _ 0 E).
  - apply nth_error_None in E. lia.
Qed.

Lemma count_matches_handles tgt os st st' :
  handles st = handles st' -> count_matches tgt os st = count_matches tgt os st'.
Proof. unfold count_matches. intros ->. reflexivity. Qed.

Lemma nth_error_slots_from i count j :
  (j < count)%nat -> nth_error (slots_from i count) j = Some (i + Z.of_nat j).
Proof.
  revert i j. induction count as [|count IH]; intros i j Hj; [lia|].
  destruct j as [|j]; cbn [slots_from nth_error].
  - f_equal. lia.
  - rewrite IH by lia. f_equal. lia.
Qed.

(** ** X1, X2: the 64-bit value of a message *)

(** X1.  The [uint64Value] of a message whose members hold values of
    their types is a 64-bit unsigned value. *)
Theorem X1_uint64Value_fits m :
  wf_Message m -> 0 <= uint64Value m < 18446744073709551616.
Proof.
  intros Hwf. rewrite (uint64Value_sum m Hwf).
  destruct Hwf as (Hs & H1 & H2 & H3 & H4). lia.
Qed.

Lemma X1_uint64Value_fits_witness :
  0 <= uint64Value (Message_ctor 255 4294967295 255 255 255)
    < 18446744073709551616.
Proof.
  apply (X1_uint64Value_fits (Message_ctor 255 4294967295 255 255 255)).
  unfold wf_Message. cbn. lia.
Defined.

(** X2.  Two messages with the same [uint64Value] have the same members,
    padding included: the host can tell any two different events apart. *)
Theorem X2_uint64Value_injective m1 m2 :
  wf_Message m1 -> wf_Message m2 ->
  uint64Value m1 = uint64Value m2 -> m1 = m2.
Proof.
  intros H1 H2 Heq.
  rewrite <- (Message_of_uint64_Value m1 H1), <- (Message_of_uint64_Value m2 H2).
  rewrite Heq. reflexivity.
Qed.

Lemma X2_uint64Value_injective_witness :
  Message_ctor 0 4096 144 60 127 = Message_ctor 256 4096 144 60 127.
Proof.
  apply (X2_uint64Value_injective (Message_ctor 0 4096 144 60 127)
           (Message_ctor 256 4096 144 60 127)).
  - unfold wf_Message. cbn. lia.
  - unfold wf_Message. cbn. lia.
  - reflexivity.
Defined.

(** ** X3: what the callback reads *)

Lemma land_255_mod x : Z.land x 255 = x mod 256.
Proof. change 255 with (Z.ones 8). rewrite Z.land_ones by lia. reflexivity. Qed.

Lemma shiftr_land_255 x k :
  0 <= k -> Z.land (Z.shiftr x k) 255 = (x / 2 ^ k) mod 256.
Proof. intros Hk. rewrite land_255_mod, Z.shiftr_div_pow2 by lia. reflexivity. Qed.

(** X3.  The callback reads the low 32 bits of the handle, the low 24
    bits of [dwParam1] and nothing else of its arguments: [dwInstance],
    [dwParam2] (the time stamp) and the high bits of [dwParam1] have no
    effect, and two handles equal in their low 32 bits queue the same
    event. *)
Theorem X3_callback_reads_low_bits
    junk hMidiIn hMidiIn' wMsg dwInstance dwInstance' dwParam1 dwParam1'
    dwParam2 dwParam2' st :
  hMidiIn mod 4294967296 = hMidiIn' mod 4294967296 ->
  dwParam1 mod 16777216 = dwParam1' mod 16777216 ->
  MyMidiInProc junk hMidiIn wMsg dwInstance dwParam1 dwParam2 st =
  MyMidiInProc junk hMidiIn' wMsg dwInstance' dwParam1' dwParam2' st.
Proof.
  intros Hh Hp. unfold MyMidiInProc.
  destruct (wMsg =? MIM_DATA); [|reflexivity].
  assert (Hm : Message_ctor junk hMidiIn (Z.land dwParam1 255)
                 (Z.land (Z.shiftr dwParam1 8) 255)
                 (Z.land (Z.shiftr dwParam1 16) 255)
             = Message_ctor junk hMidiIn' (Z.land dwParam1' 255)
                 (Z.land (Z.shiftr dwParam1' 8) 255)
                 (Z.land (Z.shiftr dwParam1' 16) 255)).
  { unfold Message_ctor, ConvertHandle, to_uint32.
    rewrite !shiftr_land_255, !land_255_mod by lia.
    change (2 ^ 8) with 256. change (2 ^ 16) with 65536.
    f_equal; [exact Hh | zlia | zlia | zlia]. }
  rewrite Hm. reflexivity.
Qed.

Lemma X3_callback_reads_low_bits_witness :
  MyMidiInProc 0 4096 MIM_DATA 0 note_on_60 0 initial =
  MyMidiInProc 0 (4096 + 4294967296) MIM_DATA 7 (note_on_60 + 16777216) 123456
    initial.
Proof.
  apply (X3_callback_reads_low_bits 0 4096 (4096 + 4294967296) MIM_DATA 0 7
           note_on_60 (note_on_60 + 16777216) 0 123456 initial);
    reflexivity.
Defined.

(** ** X4 to X7: polling *)

Lemma Dequeue_stable_outcome tgt os st :
  count_matches tgt os st = true ->
  outcome_of (UnityMIDIReceiver_DequeueIncomingData tgt os st) =
    match messageQueue st with
    | [] => Returns 0 st
    | m :: q => Returns (uint64Value (last q m))
                        {| handles := handles st; messageQueue := q |}
    end.
Proof.
  intros Hc. rewrite Dequeue_outcome, Reset_outcome, Hc. reflexivity.
Qed.

(** With the newest event [m] behind the events [q], the call returns
    the value of [m] and removes the front of the queue. *)
Lemma Dequeue_stable_newest tgt os st q m :
  count_matches tgt os st = true ->
  messageQueue st = q ++ [m] ->
  outcome_of (UnityMIDIReceiver_DequeueIncomingData tgt os st) =
    Returns (uint64Value m)
            {| handles := handles st; messageQueue := tl (q ++ [m]) |}.
Proof.
  intros Hc Hq. rewrite (Dequeue_stable_outcome tgt os st Hc), Hq.
  destruct q as [|x q]; cbn [app tl]; [reflexivity|].
  rewrite last_last. reflexivity.
Qed.

(** X4.  Zero is returned for no event that carries a status byte or an
    endpoint identifier: with the device count unchanged and the newest
    queued event [m] having a nonzero [status] or [source], the poll
    returns a nonzero value (and removes the front of the queue). *)
Theorem X4_dequeue_event_is_nonzero tgt os st q m :
  0 <= numDevs os <= INT_MAX ->
  numDevs os = Z.of_nat (length (handles st)) ->
  messageQueue st = q ++ [m] ->
  wf_Message m ->
  status m <> 0 \/ source m <> 0 ->
  outcome_of (UnityMIDIReceiver_DequeueIncomingData tgt os st) =
    Returns (uint64Value m)
            {| handles := handles st; messageQueue := tl (q ++ [m]) |} /\
  uint64Value m <> 0.
Proof.
  intros Hn Heq Hq Hwf Hnz. split.
  - apply Dequeue_stable_newest; [|exact Hq].
    apply count_matches_iff; assumption.
  - rewrite (uint64Value_sum m Hwf).
    destruct Hwf as (Hs & H1 & H2 & H3 & H4). lia.
Qed.

Lemma X4_dequeue_event_is_nonzero_witness :
  outcome_of (UnityMIDIReceiver_DequeueIncomingData Win32 (devices 2)
                two_sessions_two_events) =
    Returns (uint64Value (Message_ctor 0 4112 144 62 100))
            {| handles := handles two_sessions_two_events;
               messageQueue := tl ([Message_ctor 0 4096 144 60 127]
                                   ++ [Message_ctor 0 4112 144 62 100]) |} /\
  uint64Value (Message_ctor 0 4112 144 62 100) <> 0.
Proof.
  apply (X4_dequeue_event_is_nonzero Win32 (devices 2) two_sessions_two_events
           [Message_ctor 0 4096 144 60 127] (Message_ctor 0 4112 144 62 100)).
  - unfold INT_MAX. cbn. lia.
  - reflexivity.
  - reflexivity.
  - unfold wf_Message. cbn. lia.
  - left. cbn. lia.
Defined.

Lemma poll_empty tgt os st k :
  count_matches tgt os st = true ->
  messageQueue st = [] ->
  outcome_of (poll tgt os k st) = Returns (repeat 0 k) st.
Proof.
  intros Hc Hq. induction k as [|k IH]; cbn [poll repeat]; [reflexivity|].
  rewrite outcome_of_bind, (Dequeue_stable_outcome tgt os st Hc), Hq.
  rewrite outcome_of_bind, IH. reflexivity.
Qed.

(** X5.  Polling a queue of several events while the device count is
    unchanged: each of the first [length q + 1] polls removes one event
    and returns the value of the newest event [m], the queue is then
    empty, and the following polls return 0.  The values of the older
    events [q] are never returned. *)
Theorem X5_poll_returns_newest tgt os st q m k :
  0 <= numDevs os <= INT_MAX ->
  numDevs os = Z.of_nat (length (handles st)) ->
  messageQueue st = q ++ [m] ->
  outcome_of (poll tgt os (length q + 1 + k) st) =
    Returns (repeat (uint64Value m) (length q + 1) ++ repeat 0 k)
            {| handles := handles st; messageQueue := [] |}.
Proof.
  intros Hn Heq Hq.
  assert (Hc : count_matches tgt os st = true)
    by (apply count_matches_iff; assumption).
  clear Hn Heq. revert st Hc Hq.
  induction q as [|x q IH]; intros st Hc Hq;
    cbn [length Nat.add poll repeat app];
    rewrite outcome_of_bind, (Dequeue_stable_newest tgt os st _ m Hc Hq);
    cbn [app tl]; rewrite outcome_of_bind.
  - rewrite poll_empty; [reflexivity | | reflexivity].
    rewrite <- Hc. apply count_matches_handles. reflexivity.
  - rewrite (IH {| handles := handles st; messageQueue := q ++ [m] |});
      [reflexivity | | reflexivity].
    rewrite <- Hc. apply count_matches_handles. reflexivity.
Qed.

Lemma X5_poll_returns_newest_witness :
  outcome_of (poll Win32 (devices 2)
                (length [Message_ctor 0 4096 144 60 127] + 1 + 2)
                two_sessions_two_events) =
    Returns (repeat (uint64Value (Message_ctor 0 4112 144 62 100))
               (length [Message_ctor 0 4096 144 60 127] + 1) ++ repeat 0 2)
            {| handles := handles two_sessions_two_events; messageQueue := [] |}.
Proof.
  apply (X5_poll_returns_newest Win32 (devices 2) two_sessions_two_events
           [Message_ctor 0 4096 144 60 127] (Message_ctor 0 4112 144 62 100) 2).
  - unfold INT_MAX. cbn. lia.
  - reflexivity.
  - reflexivity.
Defined.

(** X6.  When every message is polled before the next one arrives, the
    polls return the values of the messages in their order of arrival,
    one each, and the state is the same afterwards. *)
Theorem X6_arrive_and_poll_in_order tgt os junk es st :
  0 <= numDevs os <= INT_MAX ->
  numDevs os = Z.of_nat (length (handles st)) ->
  messageQueue st = [] ->
  outcome_of (arrive_and_poll tgt os junk es st) =
    Returns (map (fun e => uint64Value (queued_message junk e)) es) st.
Proof.
  intros Hn Heq Hq.
  assert (Hc : count_matches tgt os st = true)
    by (apply count_matches_iff; assumption).
  destruct st as [hs mq]. cbn [messageQueue] in Hq. subst mq.
  induction es as [|e es IH]; cbn [arrive_and_poll map]; [reflexivity|].
  rewrite outcome_of_bind, MyMidiInProc_data. cbn [outcome_of snd handles messageQueue app].
  rewrite outcome_of_bind.
  rewrite (Dequeue_stable_newest tgt os _ [] (queued_message junk e));
    [| rewrite <- Hc; apply count_matches_handles; reflexivity | reflexivity].
  cbn [app tl handles]. rewrite outcome_of_bind, IH. reflexivity.
Qed.

Lemma X6_arrive_and_poll_in_order_witness :
  outcome_of (arrive_and_poll Win32 (devices 2) 0
                [(4096, note_on_60); (4112, note_on_62); (4096, note_off_60)]
                {| handles := [4096; 4112]; messageQueue := [] |}) =
    Returns (map (fun e => uint64Value (queued_message 0 e))
               [(4096, note_on_60); (4112, note_on_62); (4096, note_off_60)])
            {| handles := [4096; 4112]; messageQueue := [] |}.
Proof.
  apply (X6_arrive_and_poll_in_order Win32 (devices 2) 0
           [(4096, note_on_60); (4112, note_on_62); (4096, note_off_60)]
           {| handles := [4096; 4112]; messageQueue := [] |}).
  - unfold INT_MAX. cbn. lia.
  - reflexivity.
  - reflexivity.
Defined.

(** X7.  A poll that finds a changed device count returns 0 whatever was
    queued: when the slots open and start, the events queued before are
    dropped and the handles are those of the new sessions. *)
Theorem X7_dequeue_drops_stale_events tgt os st :
  0 <= numDevs os <= INT_MAX ->
  numDevs os <> Z.of_nat (length (handles st)) ->
  (forall i, 0 <= i < numDevs os -> slot_ok os i) ->
  outcome_of (UnityMIDIReceiver_DequeueIncomingData tgt os st) =
    Returns 0 {| handles := map (opened os) (slots (numDevs os));
                 messageQueue := [] |}.
Proof.
  intros Hn Hne Hok.
  assert (Hc : count_matches tgt os st = false).
  { apply not_true_is_false. rewrite count_matches_iff by exact Hn. exact Hne. }
  rewrite <- (to_int_small _ Hn).
  apply Dequeue_rebuilds; [exact Hc|].
  rewrite (to_int_small _ Hn). apply forallb_slots. exact Hok.
Qed.

Lemma X7_dequeue_drops_stale_events_witness :
  outcome_of (UnityMIDIReceiver_DequeueIncomingData Win32 (devices 3)
                two_sessions_two_events) =
    Returns 0 {| handles := map (opened (devices 3)) (slots (numDevs (devices 3)));
                 messageQueue := [] |}.
Proof.
  apply (X7_dequeue_drops_stale_events Win32 (devices 3) two_sessions_two_events).
  - unfold INT_MAX. cbn. lia.
  - cbn. lia.
  - intros i _. split; reflexivity.
Defined.

(** ** X8, X9: the handle vector after a count *)

(** X8.  A count that returns reports the device count WinMM gave, and
    leaves exactly that many handles, whether or not it rebuilt the
    sessions. *)
Theorem X8_count_reports_device_count tgt os st t c st' :
  0 <= numDevs os <= INT_MAX ->
  UnityMIDIReceiver_CountEndpoints tgt os st = (t, Returns c st') ->
  c = numDevs os /\ Z.of_nat (length (handles st')) = numDevs os.
Proof.
  intros Hn Hrun.
  assert (Ho : outcome_of (UnityMIDIReceiver_CountEndpoints tgt os st)
               = Returns c st') by (rewrite Hrun; reflexivity).
  rewrite Count_outcome, Reset_outcome in Ho.
  destruct (count_matches tgt os st) eqn:Hc.
  - injection Ho as <- <-.
    apply count_matches_iff in Hc; [|exact Hn].
    rewrite <- Hc, (to_int_small _ Hn). split; reflexivity.
  - destruct (forallb _ _); [|discriminate].
    injection Ho as <- <-. cbn [handles].
    unfold slots. rewrite length_map, length_slots_from, (to_int_small _ Hn).
    rewrite Z2Nat.id by lia. rewrite (to_int_small _ Hn). split; reflexivity.
Qed.

Lemma X8_count_reports_device_count_witness :
  3 = numDevs (devices 3) /\
  Z.of_nat (length (handles {| handles := [4096; 4112; 4128];
                               messageQueue := [] |})) = numDevs (devices 3).
Proof.
  apply (X8_count_reports_device_count Win64 (devices 3) two_sessions_one_event
           [GetNumDevs; Close 4096; Close 4112; Queue QSwap;
            Open 0; Start 4096; Open 1; Start 4112; Open 2; Start 4128]
           3 {| handles := [4096; 4112; 4128]; messageQueue := [] |}).
  - unfold INT_MAX. cbn. lia.
  - reflexivity.
Defined.

(** X9.  After a count that rebuilt the sessions, index [i] designates
    device slot [i]: the identifier at index [i] is the converted handle
    that [midiInOpen] stored for slot [i]. *)
Theorem X9_index_is_device_slot tgt os st i :
  0 <= numDevs os <= INT_MAX ->
  numDevs os <> Z.of_nat (length (handles st)) ->
  (forall j, 0 <= j < numDevs os -> slot_ok os j) ->
  0 <= i < numDevs os ->
  outcome_of ((UnityMIDIReceiver_CountEndpoints tgt os ;;
               UnityMIDIReceiver_GetEndpointIDAtIndex i) st) =
    Returns (ConvertHandle (opened os i))
            {| handles := map (opened os) (slots (numDevs os));
               messageQueue := [] |}.
Proof.
  intros Hn Hne Hok Hi.
  assert (Hc : count_matches tgt os st = false).
  { apply not_true_is_false. rewrite count_matches_iff by exact Hn. exact Hne. }
  apply forallb_slots in Hok.
  rewrite outcome_of_bind, Count_outcome, Reset_outcome, Hc.
  rewrite (to_int_small _ Hn), Hok.
  rewrite IDAtIndex_value. cbn [outcome_of snd handles].
  assert (Hlen : Z.of_nat (length (map (opened os) (slots (numDevs os))))
                 = numDevs os).
  { unfold slots. rewrite length_map, length_slots_from. lia. }
  rewrite Hlen, (to_int_small _ Hn).
  assert (E0 : (0 <=? i) = true) by (apply Z.leb_le; lia).
  assert (E1 : (i <? numDevs os) = true) by (apply Z.ltb_lt; lia).
  rewrite E0, E1. cbn [andb]. do 2 f_equal.
  apply nth_error_nth. rewrite nth_error_map. unfold slots.
  rewrite nth_error_slots_from by lia. cbn. f_equal. f_equal. lia.
Qed.

Lemma X9_index_is_device_slot_witness :
  outcome_of ((UnityMIDIReceiver_CountEndpoints Win32 (devices 3) ;;
               UnityMIDIReceiver_GetEndpointIDAtIndex 2) two_sessions_one_event) =
    Returns (ConvertHandle (opened (devices 3) 2))
            {| handles := map (opened (devices 3)) (slots (numDevs (devices 3)));
               messageQueue := [] |}.
Proof.
  apply (X9_index_is_device_slot Win32 (devices 3) two_sessions_one_event 2).
  - unfold INT_MAX. cbn. lia.
  - cbn. lia.
  - intros j _. split; reflexivity.
  - cbn. lia.
Defined.

(** ** X10 to X12: endpoint names *)

(** X10.  A name is returned only for an identifier of a tracked handle
    for which both WinMM queries succeed: the handle is one whose
    converted value is [id], and the name is the one [midiInGetDevCaps]
    left for the device [midiInGetID] reported. *)
Theorem X10_name_is_of_tracked_handle names id st caps caps' :
  UnityMIDIReceiver_GetEndpointName names id st caps = (CapsName, caps') ->
  exists h,
    In h (handles st) /\ ConvertHandle h = id /\
    fst (getIDResult names h) = MMSYSERR_NOERROR /\
    devCapsResult names (snd (getIDResult names h)) caps
      = (MMSYSERR_NOERROR, caps').
Proof.
  unfold UnityMIDIReceiver_GetEndpointName. intros Hrun.
  destruct (find _ (handles st)) as [h|] eqn:Hf; [|discriminate].
  apply find_some in Hf as [Hin Hid]. apply Z.eqb_eq in Hid.
  destruct (fst (getIDResult names h) =? MMSYSERR_NOERROR) eqn:E1;
    cbn [negb] in Hrun; [|discriminate].
  destruct (devCapsResult names (snd (getIDResult names h)) caps) as [r c] eqn:E.
  cbn [fst snd] in Hrun.
  destruct (r =? MMSYSERR_NOERROR) eqn:E2; cbn [negb] in Hrun; [|discriminate].
  injection Hrun as <-. apply Z.eqb_eq in E1, E2. subst r.
  exists h. repeat split; assumption.
Qed.

Lemma X10_name_is_of_tracked_handle_witness :
  exists h,
    In h (handles two_sessions_one_event) /\ ConvertHandle h = 4112 /\
    fst (getIDResult two_named_devices h) = MMSYSERR_NOERROR /\
    devCapsResult two_named_devices (snd (getIDResult two_named_devices h))
      ""%string = (MMSYSERR_NOERROR, "Pad"%string).
Proof.
  apply (X10_name_is_of_tracked_handle two_named_devices 4112
           two_sessions_one_event ""%string "Pad"%string).
  reflexivity.
Defined.

(** X11.  For an identifier that no tracked handle converts to, the name
    query returns [NULL] without asking WinMM and leaves the static
    buffer as it was; so it does for every identifier when no session is
    open. *)
Theorem X11_unknown_id_has_no_name names id st caps :
  (forall h, In h (handles st) -> ConvertHandle h <> id) ->
  UnityMIDIReceiver_GetEndpointName names id st caps = (NullName, caps).
Proof.
  intros Hno. unfold UnityMIDIReceiver_GetEndpointName.
  destruct (find _ (handles st)) as [h|] eqn:Hf; [|reflexivity].
  apply find_some in Hf as [Hin Hid]. apply Z.eqb_eq in Hid.
  destruct (Hno h Hin Hid).
Qed.

Lemma X11_unknown_id_has_no_name_witness :
  UnityMIDIReceiver_GetEndpointName two_named_devices 4128
    two_sessions_one_event "Keyboard"%string = (NullName, "Keyboard"%string).
Proof.
  apply (X11_unknown_id_has_no_name two_named_devices 4128
           two_sessions_one_event "Keyboard"%string).
  intros h [<-|[<-|[]]]; discriminate.
Defined.

Lemma find_first_of_distinct (hs : list HMIDIIN) k h :
  NoDup (map ConvertHandle hs) ->
  nth_error hs k = Some h ->
  find (fun h' => ConvertHandle h' =? ConvertHandle h) hs = Some h.
Proof.
  revert k. induction hs as [|x hs IH]; intros k Hnd Hk.
  - destruct k; discriminate.
  - cbn [map] in Hnd. inversion Hnd as [|? ? Hx Hnd']; subst.
    destruct k as [|k]; cbn [nth_error find] in *.
    + injection Hk as ->. rewrite Z.eqb_refl. reflexivity.
    + destruct (ConvertHandle x =? ConvertHandle h) eqn:E.
      * apply Z.eqb_eq in E. exfalso. apply Hx. rewrite E.
        apply in_map. eapply nth_error_In. exact Hk.
      * eapply IH; eassumption.
Qed.

(** X12.  When the tracked handles convert to distinct identifiers, the
    identifier returned for an index names the session at that index:
    the name query with it asks WinMM about the handle at the index, and
    returns the name WinMM gives when both queries succeed. *)
Theorem X12_name_of_id_at_index names st index h caps :
  NoDup (map ConvertHandle (handles st)) ->
  0 <= index ->
  Z.of_nat (length (handles st)) <= INT_MAX ->
  nth_error (handles st) (Z.to_nat index) = Some h ->
  fst (getIDResult names h) = MMSYSERR_NOERROR ->
  fst (devCapsResult names (snd (getIDResult names h)) caps) = MMSYSERR_NOERROR ->
  UnityMIDIReceiver_GetEndpointIDAtIndex index st
    = ([], Returns (ConvertHandle h) st) /\
  UnityMIDIReceiver_GetEndpointName names (ConvertHandle h) st caps
    = (CapsName, snd (devCapsResult names (snd (getIDResult names h)) caps)).
Proof.
  intros Hnd H0 Hmax Hh Hid Hcaps. split.
  - rewrite IDAtIndex_value.
    assert (Hlt : (Z.to_nat index < length (handles st))%nat)
      by (apply nth_error_Some; rewrite Hh; discriminate).
    rewrite to_int_small by lia.
    assert (E0 : (0 <=? index) = true) by (apply Z.leb_le; lia).
    assert (E1 : (index <? Z.of_nat (length (handles st))) = true)
      by (apply Z.ltb_lt; lia).
    rewrite E0, E1. cbn [andb]. do 3 f_equal. apply nth_error_nth. exact Hh.
  - unfold UnityMIDIReceiver_GetEndpointName.
    rewrite (find_first_of_distinct _ _ _ Hnd Hh).
    apply Z.eqb_eq in Hid, Hcaps. cbv zeta. rewrite Hid, Hcaps. reflexivity.
Qed.

Lemma X12_name_of_id_at_index_witness :
  UnityMIDIReceiver_GetEndpointIDAtIndex 1 two_sessions_one_event
    = ([], Returns (ConvertHandle 4112) two_sessions_one_event) /\
  UnityMIDIReceiver_GetEndpointName two_named_devices (ConvertHandle 4112)
    two_sessions_one_event "Keyboard"%string
    = (CapsName,
       snd (devCapsResult two_named_devices
              (snd (getIDResult two_named_devices 4112)) "Keyboard"%string)).
Proof.
  apply (X12_name_of_id_at_index two_named_devices two_sessions_one_event 1 4112
           "Keyboard"%string).
  - cbn. repeat constructor; cbn; intuition discriminate.
  - lia.
  - unfold INT_MAX. cbn. lia.
  - reflexivity.
  - reflexivity.
  - reflexivity.
Defined.

(** ** X13 to X16: any sequence of calls *)

Lemma MyMidiInProc_outcome junk hMidiIn wMsg dwInstance dwParam1 dwParam2 st :
  outcome_of (MyMidiInProc junk hMidiIn wMsg dwInstance dwParam1 dwParam2 st) =
    Returns tt
      (if wMsg =? MIM_DATA
       then {| handles := handles st;
               messageQueue :=
                 messageQueue st ++ [queued_message junk (hMidiIn, dwParam1)] |}
       else st).
Proof. unfold MyMidiInProc. destruct (wMsg =? MIM_DATA); reflexivity. Qed.

Lemma forallb_false_exists {A} (f : A -> bool) (l : list A) :
  forallb f l = false -> exists x, In x l /\ f x = false.
Proof.
  induction l as [|x l IH]; cbn [forallb]; [discriminate|].
  destruct (f x) eqn:E; cbn [andb].
  - intros H. destruct (IH H) as (y & Hy & Hfy). exists y. split; [right|]; assumption.
  - intros _. exists x. split; [left; reflexivity | exact E].
Qed.

Lemma perform_defined tgt c st : outcome_of (perform tgt c st) <> Undefined.
Proof.
  destruct c as [junk h wMsg inst p1 p2 | os | index | os]; cbn [perform].
  - rewrite outcome_of_bind, MyMidiInProc_outcome. discriminate.
  - rewrite Count_outcome, Reset_outcome.
    destruct (count_matches tgt os st); [discriminate|].
    destruct (forallb _ _); discriminate.
  - rewrite IDAtIndex_value. discriminate.
  - rewrite Dequeue_outcome, Reset_outcome.
    destruct (count_matches tgt os st).
    + destruct (messageQueue st); discriminate.
    + destruct (forallb _ _); discriminate.
Qed.

(** X13.  No sequence of callbacks and host calls, from any state,
    reaches an undefined access: [back()] and [pop()] are only called on
    a nonempty queue and [handles[index]] only inside the vector.  A
    sequence either returns or stops at a failed [assert]. *)
Theorem X13_calls_never_undefined tgt cs st :
  outcome_of (perform_all tgt cs st) <> Undefined.
Proof.
  revert st. induction cs as [|c cs IH]; intros st; cbn [perform_all].
  - discriminate.
  - rewrite outcome_of_bind.
    pose proof (perform_defined tgt c st) as Hc.
    destruct (outcome_of (perform tgt c st)) as [v st'| |];
      [|discriminate|contradiction].
    rewrite outcome_of_bind. specialize (IH st').
    destruct (outcome_of (perform_all tgt cs st')); [discriminate|discriminate|contradiction].
Qed.

Lemma perform_wf tgt c st v st' :
  Forall wf_Message (messageQueue st) ->
  outcome_of (perform tgt c st) = Returns v st' ->
  Forall wf_Message (messageQueue st').
Proof.
  intros Hwf.
  destruct c as [junk h wMsg inst p1 p2 | os | index | os]; cbn [perform].
  - rewrite outcome_of_bind, MyMidiInProc_outcome. cbn. intros [= _ <-].
    destruct (wMsg =? MIM_DATA); [|exact Hwf]. cbn [messageQueue].
    apply Forall_app. split; [exact Hwf|]. constructor; [|constructor].
    apply Message_ctor_wf; apply land_255_range.
  - rewrite Count_outcome, Reset_outcome.
    destruct (count_matches tgt os st).
    + intros [= _ <-]. exact Hwf.
    + destruct (forallb _ _); [|discriminate]. intros [= _ <-]. constructor.
  - rewrite IDAtIndex_value. intros [= _ <-]. exact Hwf.
  - rewrite Dequeue_outcome, Reset_outcome.
    destruct (count_matches tgt os st).
    + destruct (messageQueue st) as [|m q] eqn:Hq.
      * intros [= _ <-]. rewrite Hq. constructor.
      * intros [= _ <-]. cbn. inversion Hwf; assumption.
    + destruct (forallb _ _); [|discriminate]. intros [= _ <-]. constructor.
Qed.

(** X14.  Well-formedness of the queue is an invariant of every sequence
    of callbacks and host calls: if every queued message holds values of
    its members' types before, so does every queued message after. *)
Theorem X14_calls_keep_queue_well_formed tgt cs st vs st' :
  Forall wf_Message (messageQueue st) ->
  outcome_of (perform_all tgt cs st) = Returns vs st' ->
  Forall wf_Message (messageQueue st').
Proof.
  revert st vs. induction cs as [|c cs IH]; intros st vs Hwf; cbn [perform_all].
  - intros [= _ <-]. exact Hwf.
  - rewrite outcome_of_bind.
    destruct (outcome_of (perform tgt c st)) as [v st1| |] eqn:Hc; try discriminate.
    rewrite outcome_of_bind.
    destruct (outcome_of (perform_all tgt cs st1)) as [vs1 st2| |] eqn:Hcs;
      try discriminate.
    intros [= _ <-].
    apply (IH st1 vs1); [|exact Hcs].
    apply (perform_wf tgt c st v st1 Hwf Hc).
Qed.

Lemma X14_calls_keep_queue_well_formed_witness :
  Forall wf_Message
    (messageQueue {| handles := [4096; 4112];
                     messageQueue := [queued_message 999 (4112, note_on_62)] |}).
Proof.
  apply (X14_calls_keep_queue_well_formed Win32
           [CallCountEndpoints (devices 2);
            CallMidiInProc 999 4096 MIM_DATA 0 note_on_60 0;
            CallMidiInProc 999 4112 MIM_DATA 0 note_on_62 0;
            CallDequeueIncomingData (devices 2)]
           initial
           [2; 0; 0; uint64Value (queued_message 999 (4112, note_on_62))]
           {| handles := [4096; 4112];
              messageQueue := [queued_message 999 (4112, note_on_62)] |}).
  - constructor.
  - reflexivity.
Defined.

Lemma mutex_after_app held t1 t2 :
  mutex_after held (t1 ++ t2) = mutex_after (mutex_after held t1) t2.
Proof.
  revert held. induction t1 as [|e t1 IH]; intros held; cbn [app mutex_after].
  - reflexivity.
  - destruct e; apply IH.
Qed.

Lemma guarded_from_app allowed held t1 t2 :
  guarded_from allowed held (t1 ++ t2) =
    guarded_from allowed held t1 && guarded_from allowed (mutex_after held t1) t2.
Proof.
  revert held. induction t1 as [|e t1 IH]; intros held;
    cbn [app mutex_after guarded_from].
  - reflexivity.
  - destruct e; rewrite ?IH, ?andb_assoc; reflexivity.
Qed.

Lemma reset_events_quiet held t :
  Forall reset_event t ->
  guarded_from unlocked_access held t = true /\ mutex_after held t = held.
Proof.
  induction 1 as [|e t He _ IH]; cbn [guarded_from mutex_after].
  - split; reflexivity.
  - destruct e; cbn in He; try contradiction; try exact IH.
    subst op. cbn. rewrite orb_true_r. exact IH.
Qed.

Lemma disciplined_app t1 t2 :
  disciplined t1 -> disciplined t2 -> disciplined (t1 ++ t2).
Proof.
  unfold disciplined. intros [G1 M1] [G2 M2].
  rewrite guarded_from_app, mutex_after_app, G1, M1, G2, M2. split; reflexivity.
Qed.

Lemma perform_disciplined tgt c st : disciplined (trace_of (perform tgt c st)).
Proof.
  destruct c as [junk h wMsg inst p1 p2 | os | index | os]; cbn [perform].
  - unfold MyMidiInProc. destruct (wMsg =? MIM_DATA); split; reflexivity.
  - unfold UnityMIDIReceiver_CountEndpoints. rewrite trace_of_bind.
    apply disciplined_app.
    + apply reset_events_quiet, Reset_trace.
    + destruct (outcome_of _); split; reflexivity.
  - rewrite IDAtIndex_value. split; reflexivity.
  - unfold UnityMIDIReceiver_DequeueIncomingData. rewrite trace_of_bind.
    apply disciplined_app.
    + apply reset_events_quiet, Reset_trace.
    + destruct (outcome_of _) as [[] [hs [|m q]]| |]; split; reflexivity.
Qed.

(** X15.  In every sequence of callbacks and host calls, run to its end
    or to a failed [assert], every [push], [back()] and [pop()] happens
    between a [lock()] and the following [unlock()], and the mutex is
    free when the sequence ends: no call returns or stops holding it. *)
Theorem X15_calls_release_the_mutex tgt cs st :
  guarded_from unlocked_access false (trace_of (perform_all tgt cs st)) = true /\
  mutex_after false (trace_of (perform_all tgt cs st)) = false.
Proof.
  change (disciplined (trace_of (perform_all tgt cs st))).
  revert st. induction cs as [|c cs IH]; intros st; cbn [perform_all].
  - split; reflexivity.
  - rewrite trace_of_bind. apply disciplined_app; [apply perform_disciplined|].
    destruct (outcome_of (perform tgt c st)) as [v st1| |];
      try (split; reflexivity).
    rewrite trace_of_bind. apply disciplined_app; [apply IH|].
    destruct (outcome_of (perform_all tgt cs st1)); split; reflexivity.
Qed.

(** X16.  A poll stops at a failed [assert] exactly when it finds a
    changed device count and some slot below the new count fails to open
    or to start; a poll with an unchanged count never stops. *)
Theorem X16_dequeue_aborts_iff tgt os st :
  outcome_of (UnityMIDIReceiver_DequeueIncomingData tgt os st) = AssertFailed <->
  count_matches tgt os st = false /\
  exists i, 0 <= i < to_int (numDevs os) /\ ~ slot_ok os i.
Proof.
  rewrite Dequeue_outcome, Reset_outcome.
  destruct (count_matches tgt os st).
  - split; [|intros [? _]; discriminate].
    destruct (messageQueue st); discriminate.
  - destruct (forallb _ _) eqn:Hok.
    + split; [discriminate|]. intros (_ & i & Hi & Hbad).
      exfalso. apply Hbad. exact (proj1 (forallb_slots os _) Hok i Hi).
    + split; [|reflexivity]. intros _. split; [reflexivity|].
      destruct (forallb_false_exists _ _ Hok) as (i & Hin & Hf).
      exists i. split; [apply In_slots; exact Hin|].
      intros Hs. apply slot_okb_spec in Hs. congruence.
Qed.

Lemma perform_keeps_handles tgt c st v st' :
  0 <= Z.of_nat (length (handles st)) <= INT_MAX ->
  observes_only (Z.of_nat (length (handles st))) c ->
  outcome_of (perform tgt c st) = Returns v st' ->
  handles st' = handles st.
Proof.
  intros Hr Hobs.
  destruct c as [junk h wMsg inst p1 p2 | os | index | os];
    cbn [perform]; cbn in Hobs.
  - rewrite outcome_of_bind, MyMidiInProc_outcome. cbn. intros [= _ <-].
    destruct (wMsg =? MIM_DATA); reflexivity.
  - assert (Hc : count_matches tgt os st = true)
      by (apply count_matches_iff; [rewrite Hobs; exact Hr | exact Hobs]).
    rewrite Count_outcome, Reset_outcome, Hc. intros [= _ <-]. reflexivity.
  - rewrite IDAtIndex_value. intros [= _ <-]. reflexivity.
  - assert (Hc : count_matches tgt os st = true)
      by (apply count_matches_iff; [rewrite Hobs; exact Hr | exact Hobs]).
    rewrite Dequeue_outcome, Reset_outcome, Hc.
    destruct (messageQueue st); intros [= _ <-]; reflexivity.
Qed.

(** X17.  The handle vector changes only when a changed device count is
    observed: a sequence of callbacks and host calls in which every count
    and every poll is answered the number of tracked handles returns
    with the same handles, so every index keeps its identifier. *)
Theorem X17_handles_change_only_on_new_count tgt cs st vs st' :
  Z.of_nat (length (handles st)) <= INT_MAX ->
  Forall (observes_only (Z.of_nat (length (handles st)))) cs ->
  outcome_of (perform_all tgt cs st) = Returns vs st' ->
  handles st' = handles st /\
  forall index id,
    UnityMIDIReceiver_GetEndpointIDAtIndex index st = ([], Returns id st) ->
    UnityMIDIReceiver_GetEndpointIDAtIndex index st' = ([], Returns id st').
Proof.
  intros Hmax Hobs Hrun.
  assert (Hh : handles st' = handles st).
  { revert st vs Hmax Hobs Hrun.
    induction cs as [|c cs IH]; intros st vs Hmax Hobs; cbn [perform_all].
    - intros [= _ <-]. reflexivity.
    - inversion Hobs as [|? ? Hc Hcs]; subst.
      rewrite outcome_of_bind.
      destruct (outcome_of (perform tgt c st)) as [v st1| |] eqn:E1;
        try discriminate.
      rewrite outcome_of_bind.
      destruct (outcome_of (perform_all tgt cs st1)) as [vs1 st2| |] eqn:E2;
        try discriminate.
      intros [= _ <-].
      assert (H1 : handles st1 = handles st)
        by (apply (perform_keeps_handles tgt c st v st1); [lia | exact Hc | exact E1]).
      rewrite <- H1. apply (IH st1 vs1); rewrite ?H1; assumption. }
  split; [exact Hh|].
  intros index id. rewrite !IDAtIndex_value, Hh.
  intros [= <-]. reflexivity.
Qed.

Lemma X17_handles_change_only_on_new_count_witness :
  handles {| handles := [4096; 4112];
             messageQueue := [queued_message 0 (4112, note_on_62)] |}
    = handles two_sessions_one_event /\
  forall index id,
    UnityMIDIReceiver_GetEndpointIDAtIndex index two_sessions_one_event
      = ([], Returns id two_sessions_one_event) ->
    UnityMIDIReceiver_GetEndpointIDAtIndex index
      {| handles := [4096; 4112];
         messageQueue := [queued_message 0 (4112, note_on_62)] |}
      = ([], Returns id
               {| handles := [4096; 4112];
                  messageQueue := [queued_message 0 (4112, note_on_62)] |}).
Proof.
  apply (X17_handles_change_only_on_new_count Win32
           [CallMidiInProc 0 4112 MIM_DATA 0 note_on_62 0;
            CallDequeueIncomingData (devices 2);
            CallCountEndpoints (devices 2);
            CallMidiInProc 0 4096 961 0 0 0]
           two_sessions_one_event
           [0; uint64Value (queued_message 0 (4112, note_on_62)); 2; 0]).
  - unfold INT_MAX. cbn. lia.
  - repeat constructor.
  - reflexivity.
Defined.
